(** * trainer/task_hypertune.py: the MNIST training job

    A shallow embedding of [src/trainer/task_hypertune.py] and the properties
    of its observable contract.

    The script is straight-line orchestration of library calls.  The model
    keeps that shape:

    - numbers are what the script computes with: pixels are [uint8] values
      (a [Z] in [0,255]), normalised features and accuracies are IEEE 754
      binary64 values (Rocq's primitive [float], the arithmetic of Python's
      [float] and of numpy's [float64]);
    - the script's own functions ([_preprocess_x], [_preprocess_y],
      [prepare_data], [train_and_evaluate], the [__main__] block) are
      computations in a state-and-exception monad over a [World] that records
      every library call in order, with its outcome, and the local files
      written;
    - the libraries the script calls (Keras, google.cloud.storage, the
      TensorFlow summary writer, [time], the builtin [int]) are a record of
      oracles [Libs]: each may answer or raise, depending on the whole world;
    - three library functions decide properties and are modelled from their
      documented behaviour, under Python 3 on a POSIX system: [os.path.join]
      (posixpath), [keras.utils.to_categorical], and [argparse] for the parser
      the script declares (the algorithm of CPython 3.11's [argparse.py],
      specialised to the options of that parser).

    Strings are byte strings; the classes of characters the libraries test
    (digits, white space) are taken over ASCII. *)

From Stdlib Require Import Ascii String ZArith QArith Qabs Floats.
From stdpp Require Import gmap strings list.

Local Open Scope string_scope.
Local Open Scope list_scope.
Local Open Scope Z_scope.

(** ** Python exceptions and results *)

Inductive exn : Type :=
| TypeError (msg : string)
| ValueError (msg : string)
| IndexError (msg : string)
| SystemExit (status : Z)
| LibraryError (origin msg : string).

Inductive result (A : Type) : Type :=
| Ok (a : A)
| Raise (e : exn).
Arguments Ok {A} a.
Arguments Raise {A} e.

Definition is_ok {A} (r : result A) : bool :=
  match r with Ok _ => true | Raise _ => false end.

(** ** numpy arrays *)

(** A dense array: its shape and its elements in row-major order. *)
Record ndarray (A : Type) : Type := mk_ndarray {
  shape : list nat;
  data : list A
}.
Arguments mk_ndarray {A} shape data.
Arguments shape {A} n.
Arguments data {A} n.

(** An element-wise operation allocates a new array of the same shape. *)
Definition nd_map {A B} (f : A -> B) (x : ndarray A) : ndarray B :=
  mk_ndarray (shape x) (f <$> data x).

(** A [uint8] element promoted to [float64], as numpy does before a true
    division by a Python float.  Exact on the whole [uint8] range. *)
Definition uint8_to_float64 (v : Z) : float :=
  PrimFloat.of_uint63 (Uint63.of_Z v).

(** [x / d] for a [uint8] array [x] and a Python float [d]. *)
Definition np_true_divide (x : ndarray Z) (d : float) : ndarray float :=
  nd_map (fun v => PrimFloat.div (uint8_to_float64 v) d) x.

(** The rational number a binary64 value stands for ([None] for infinities
    and NaN). *)
Definition SF2Q (f : spec_float) : option Q :=
  match f with
  | S754_zero _ => Some 0%Q
  | S754_finite s m e =>
      Some ((if s then -1 else 1) * (Z.pos m # 1) * Qpower 2 e)%Q
  | S754_infinity _ => None
  | S754_nan => None
  end.

Definition float_to_Q (f : float) : option Q := SF2Q (Prim2SF f).

(** ** os.path.join (posixpath), for two components *)

Definition startswith (p s : string) : bool := String.prefix p s.

Definition endswith (p s : string) : bool :=
  String.prefix (String.rev p) (String.rev s).

(** [posixpath.join(a, b)] on strings: an absolute [b] replaces [a]; an empty
    [a] or one that ends with the separator is extended by [b]; otherwise the
    separator is put between them. *)
Definition posixpath_join (a b : string) : string :=
  if startswith "/" b then b
  else if (String.eqb a "" || endswith "/" a)%bool then a +:+ b
  else a +:+ "/" +:+ b.

(** [os.path.join(a, b)] where [a] may be [None]: [os.fspath(None)] raises
    [TypeError]. *)
Definition os_path_join (a : option string) (b : string) : result string :=
  match a with
  | None =>
      Raise (TypeError
        "expected str, bytes or os.PathLike object, not NoneType")
  | Some a => Ok (posixpath_join a b)
  end.

(** ** keras.utils.to_categorical *)

(** numpy's index resolution along an axis of length [n]: a negative index
    counts from the end; out of range has no element. *)
Definition np_index (n i : Z) : option nat :=
  if (0 <=? i) && (i <? n) then Some (Z.to_nat i)
  else if (i <? 0) && (0 <=? n + i) then Some (Z.to_nat (n + i))
  else None.

Definition np_max (y0 : Z) (ys : list Z) : Z := fold_left Z.max ys y0.

(** One row of the class matrix: [zeros(num_classes)] with a [1] assigned at
    the label's index. *)
Definition categorical_row (num_classes : Z) (label : Z)
  : result (list float) :=
  match np_index num_classes label with
  | Some j => Ok (<[j := 1%float]> (replicate (Z.to_nat num_classes) 0%float))
  | None => Raise (IndexError "index out of bounds")
  end.

Fixpoint categorical_rows (num_classes : Z) (y : list Z)
  : result (list (list float)) :=
  match y with
  | [] => Ok []
  | l :: y' =>
      match categorical_row num_classes l with
      | Raise e => Raise e
      | Ok r =>
          match categorical_rows num_classes y' with
          | Raise e => Raise e
          | Ok rs => Ok (r :: rs)
          end
      end
  end.

(** [to_categorical(y)] with [num_classes] left at its default [None], on a
    vector of integer labels: the number of classes is inferred from the
    vector as [max(y) + 1], and row [i] of the result is the one-hot vector of
    [y[i]].  [np.max] of an empty vector raises [ValueError]. *)
Definition to_categorical (y : list Z) : result (list (list float)) :=
  match y with
  | [] =>
      Raise (ValueError
        "zero-size array to reduction operation maximum which has no identity")
  | y0 :: ys =>
      let num_classes := np_max y0 ys + 1 in
      if num_classes <? 0
      then Raise (ValueError "negative dimensions are not allowed")
      else categorical_rows num_classes y
  end.

(** ** The world: library calls in order, and local files

    The trace holds every call the script makes to a library, in order.
    [local_files] holds the names of the files the script has written in its
    working directory; of the calls the script makes, only [m.save] writes
    there (the TensorBoard logs and the summary go under [job_dir]). *)

(** [Summary.Value(tag=..., simple_value=...)] and
    [Summary(value=[...])], the protocol-buffer messages of
    [tensorflow.core.framework.summary_pb2]. *)
Record SummaryValue : Type := mk_SummaryValue {
  tag : string;
  simple_value : float
}.

Record Summary : Type := mk_Summary {
  value : list SummaryValue
}.

(** The library calls the script makes, with the arguments the properties
    are about. *)
Inductive Call : Type :=
| LoggerInfo (msg : string)
| MnistLoadData
| TimeStrftime (format : string)
| TensorBoardCallback (log_dir : string)
| BuildModel
| OptimizersAdam
| ModelCompile
| ModelFit (batch_size epochs : Z) (log_dir : string)
| ModelEvaluate
| ModelSave (filename : string)
| StorageClient
| ClientBucket (bucket_name : string)
| BucketBlob (bucket_name blob_name : string)
| BlobUploadFromFilename (bucket_name blob_name filename : string)
| FileWriter (logdir : string)
| AddSummary (logdir : string) (summary : Summary)
| WriterFlush (logdir : string).

(** One entry of the trace: the call and, when it raised, the exception. *)
Record Event : Type := mk_Event {
  ev_call : Call;
  ev_raised : option exn
}.

Record World : Type := mk_World {
  trace : list Event;
  local_files : gset string
}.

Definition log_event (c : Call) (r : option exn) (w : World) : World :=
  mk_World (trace w ++ [mk_Event c r]) (local_files w).

Definition write_local_file (filename : string) (w : World) : World :=
  mk_World (trace w) ({[ filename ]} ∪ local_files w).

(** ** The monad of the script: state and exceptions *)

Definition M (A : Type) : Type := World -> result A * World.

#[global] Instance M_ret : MRet M := fun A (a : A) w => (Ok a, w).

#[global] Instance M_bind : MBind M := fun A B (k : A -> M B) (m : M A) w =>
  match m w with
  | (Ok a, w') => k a w'
  | (Raise e, w') => (Raise e, w')
  end.

(** A pure step that may raise. *)
Definition lift {A} (r : result A) : M A := fun w => (r, w).

(** A library call: the oracle [o] decides, in the current world, whether the
    call answers or raises; either way the call is recorded, and an answered
    call has its effect [eff] on the local files. *)
Definition call {A} (c : Call) (o : World -> result A)
    (eff : World -> World) : M A :=
  fun w =>
    match o w with
    | Ok a => (Ok a, log_event c None (eff w))
    | Raise e => (Raise e, log_event c (Some e) w)
    end.

Definition no_effect (w : World) : World := w.

(** [LOGGER.info(msg)]: the logging module reports handler errors itself and
    does not raise. *)
Definition LOGGER_info (msg : string) : M unit :=
  fun w => (Ok tt, log_event (LoggerInfo msg) None w).

(** ** The libraries *)

(** A storage bucket and a blob handle, as [client.bucket(name)] and
    [bucket.blob(name)] build them (no request is sent). *)
Record Bucket : Type := mk_Bucket { bucket_name_of : string }.
Record Blob : Type := mk_Blob { blob_bucket : Bucket; blob_name_of : string }.

Abbreviation Features := (ndarray float).
Abbreviation Labels := (list (list float)).
Abbreviation RawSplit := (ndarray Z * list Z)%type.
Abbreviation Split := (ndarray float * list (list float))%type.

(** What the script imports and calls.  [Model] is the type of the object
    [build_model()] returns ([trainer/model.py]); every call takes the world
    it is made in, so that an answer may depend on the clock, the network,
    the disk and on everything done before. *)
Record Libs : Type := mk_Libs {
  Model : Type;
  mnist_load_data : World -> result (RawSplit * RawSplit);
  time_strftime : string -> World -> string;
  tensorboard_callback : string -> World -> result unit;
  build_model : World -> result Model;
  optimizers_adam : World -> result unit;
  model_compile : Model -> World -> result unit;
  model_fit :
    Model -> Features -> Labels -> Z -> Z -> string -> World -> result unit;
  model_evaluate :
    Model -> Features -> Labels -> World -> result (float * float);
  model_save : Model -> string -> World -> result unit;
  storage_client : World -> result unit;
  client_bucket : string -> World -> result unit;
  bucket_blob : Bucket -> string -> World -> result unit;
  blob_upload_from_filename : Blob -> string -> World -> result unit;
  file_writer : string -> World -> result unit;
  writer_add_summary : string -> Summary -> World -> result unit;
  writer_flush : string -> World -> result unit;
  builtin_int : string -> option Z
}.

(** ** argparse, for the parser of the script *)

(** The actions of the parser: [-h/--help], which [ArgumentParser()] adds,
    and the five [add_argument] calls. *)
Inductive Action : Type :=
| Help | OutputBucket | OutputPath | BatchSize | Epochs | JobDir.

#[global] Instance Action_eq_dec : EqDecision Action.
Proof. solve_decision. Defined.

(** [parser._option_string_actions], in registration order. *)
Definition option_string_actions : list (string * Action) :=
  [ ("-h", Help); ("--help", Help);
    ("--output-bucket", OutputBucket);
    ("--output-path", OutputPath);
    ("--batch-size", BatchSize);
    ("--epochs", Epochs);
    ("--job-dir", JobDir) ].

Fixpoint lookup_option (s : string) (tbl : list (string * Action))
  : option Action :=
  match tbl with
  | [] => None
  | (o, a) :: tbl' => if String.eqb s o then Some a else lookup_option s tbl'
  end.

(** [s.split('=', 1)] when ['=' in s]. *)
Fixpoint split_eq (s : string) : option (string * string) :=
  match s with
  | EmptyString => None
  | String c s' =>
      if Ascii.eqb c "="%char then Some (EmptyString, s')
      else match split_eq s' with
           | Some (l, r) => Some (String c l, r)
           | None => None
           end
  end.

Fixpoint contains_char (c : ascii) (s : string) : bool :=
  match s with
  | EmptyString => false
  | String d s' => Ascii.eqb c d || contains_char c s'
  end.

Definition is_digit (c : ascii) : bool :=
  let n := nat_of_ascii c in (48 <=? n)%nat && (n <=? 57)%nat.

(** Digits up to the end of the string, or up to a final newline (where [$]
    also matches); [nonempty] asks for at least one digit. *)
Fixpoint digits_to_end (nonempty : bool) (s : string) : bool :=
  match s with
  | EmptyString => negb nonempty
  | String c s' =>
      if is_digit c then digits_to_end false s'
      else negb nonempty && Ascii.eqb c "010"%char
           && match s' with EmptyString => true | _ => false end
  end.

(** [\d*\.\d+$] *)
Fixpoint digits_dot_digits (s : string) : bool :=
  match s with
  | EmptyString => false
  | String c s' =>
      if is_digit c then digits_dot_digits s'
      else Ascii.eqb c "."%char && digits_to_end true s'
  end.

(** [parser._negative_number_matcher]: [^-\d+$|^-\d*\.\d+$], over ASCII
    digits. *)
Definition negative_number_like (s : string) : bool :=
  match s with
  | String "-" s' => digits_to_end true s' || digits_dot_digits s'
  | _ => false
  end.

(** What [_parse_optional] returns for an option-like string: the action
    ([None] for an option the parser does not have), the option string and
    the explicit argument. *)
Definition OptionTuple : Type :=
  (option Action * string * option string)%type.

Definition usage_error : exn := SystemExit 2.

(** [option_string.split('=', 1)] when there is an ['='], and the whole
    string with no explicit argument otherwise. *)
Definition split_option (option_string : string) : string * option string :=
  match split_eq option_string with
  | Some (l, r) => (l, Some r)
  | None => (option_string, None)
  end.

(** [_get_option_tuples], for a string of at least two characters that starts
    with ['-']: the options a double-dash string abbreviates (up to its
    ['=']); for a single-dash string, the option that is its first two
    characters (the rest being an explicit argument) and the options it
    abbreviates. *)
Definition _get_option_tuples (option_string : string)
  : list (Action * string * option string) :=
  match option_string with
  | String c0 (String c1 tail) =>
      if Ascii.eqb c0 "-" && Ascii.eqb c1 "-" then
        let '(option_prefix, explicit_arg) := split_option option_string in
        omap (fun '(o, a) =>
                if startswith option_prefix o
                then Some (a, o, explicit_arg) else None)
             option_string_actions
      else if Ascii.eqb c0 "-" then
        let option_prefix := option_string in
        let short_option_prefix := String c0 (String c1 EmptyString) in
        let short_explicit_arg := tail in
        omap (fun '(o, a) =>
                if String.eqb o short_option_prefix
                then Some (a, o, Some short_explicit_arg)
                else if startswith option_prefix o
                then Some (a, o, None) else None)
             option_string_actions
      else []
  | _ => []
  end.

(** [_parse_optional]: [Ok None] for a positional, [Ok (Some t)] for an
    option, the usage error for an ambiguous abbreviation. *)
Definition _parse_optional (arg_string : string)
  : result (option OptionTuple) :=
  match arg_string with
  | EmptyString => Ok None
  | String c rest =>
      if negb (Ascii.eqb c "-"%char) then Ok None
      else
        match lookup_option arg_string option_string_actions with
        | Some action => Ok (Some (Some action, arg_string, None))
        | None =>
            match rest with
            | EmptyString => Ok None
            | _ =>
                let by_eq :=
                  match split_eq arg_string with
                  | Some (option_string, explicit_arg) =>
                      match lookup_option option_string
                              option_string_actions with
                      | Some action =>
                          Some (Some action, option_string, Some explicit_arg)
                      | None => None
                      end
                  | None => None
                  end in
                match by_eq with
                | Some t => Ok (Some t)
                | None =>
                    match _get_option_tuples arg_string with
                    | _ :: _ :: _ => Raise usage_error
                    | [(a, o, e)] => Ok (Some (Some a, o, e))
                    | [] =>
                        if negative_number_like arg_string then Ok None
                        else if contains_char " "%char arg_string then Ok None
                        else Ok (Some (None, arg_string, None))
                    end
                end
            end
        end
  end.

(** The pattern letter of an argument string: ['A'], ['O'] (with its option
    tuple) or ['-'] for the first [--]. *)
Inductive ArgClass : Type :=
| ClassA
| ClassO (t : OptionTuple)
| ClassDash.

(** The first pass of [_parse_known_args]: everything after [--] is an
    argument. *)
Fixpoint classify (arg_strings : list string)
  : result (list (string * ArgClass)) :=
  match arg_strings with
  | [] => Ok []
  | a :: rest =>
      if String.eqb a "--"
      then Ok ((a, ClassDash) :: List.map (fun s => (s, ClassA)) rest)
      else
        match _parse_optional a with
        | Raise e => Raise e
        | Ok t =>
            match classify rest with
            | Raise e => Raise e
            | Ok cs =>
                Ok ((a, match t with Some t => ClassO t | None => ClassA end)
                      :: cs)
            end
        end
  end.

(** The namespace while parsing.  [output_bucket] and [job_dir] start at the
    default [None], [output_path] at its declared default [''], the two
    integers at 64 and 30; [seen_output_path] is the membership of the
    [--output-path] action in [seen_actions] (for [--output-bucket] the
    attribute is a string exactly when the action was seen). *)
Record ParseState : Type := mk_ParseState {
  st_output_bucket : option string;
  st_output_path : string;
  st_seen_output_path : bool;
  st_batch_size : Z;
  st_epochs : Z;
  st_job_dir : option string;
  st_extras : list string
}.

Definition initial_state : ParseState :=
  mk_ParseState None "" false 64 30 None [].

Definition add_extra (s : string) (st : ParseState) : ParseState :=
  mk_ParseState (st_output_bucket st) (st_output_path st)
    (st_seen_output_path st) (st_batch_size st) (st_epochs st)
    (st_job_dir st) (st_extras st ++ [s]).

(** The help action with an explicit argument, in [consume_optional]: a
    single-dash [-h] followed by more [h]s is a cluster of help flags (the
    first one prints the help and exits with status 0); anything else is the
    usage error "ignored explicit argument". *)
Fixpoint help_with_explicit_arg (single_dash : bool) (explicit_arg : string)
  : exn :=
  match explicit_arg with
  | EmptyString => usage_error
  | String c e' =>
      if single_dash && Ascii.eqb c "h"%char then
        match e' with
        | EmptyString => SystemExit 0
        | _ => help_with_explicit_arg true e'
        end
      else usage_error
  end.

Section Parser.

(** The builtin [int], the [type=] of [--batch-size] and [--epochs]. *)
Context (int_of_str : string -> option Z).

(** [take_action] for a store action and its one argument string. *)
Definition take_action (action : Action) (arg : string) (st : ParseState)
  : result ParseState :=
  match action with
  | Help => Raise (SystemExit 0)
  | OutputBucket =>
      Ok (mk_ParseState (Some arg) (st_output_path st)
            (st_seen_output_path st) (st_batch_size st) (st_epochs st)
            (st_job_dir st) (st_extras st))
  | OutputPath =>
      Ok (mk_ParseState (st_output_bucket st) arg true
            (st_batch_size st) (st_epochs st) (st_job_dir st) (st_extras st))
  | BatchSize =>
      match int_of_str arg with
      | Some n =>
          Ok (mk_ParseState (st_output_bucket st) (st_output_path st)
                (st_seen_output_path st) n (st_epochs st) (st_job_dir st)
                (st_extras st))
      | None => Raise usage_error
      end
  | Epochs =>
      match int_of_str arg with
      | Some n =>
          Ok (mk_ParseState (st_output_bucket st) (st_output_path st)
                (st_seen_output_path st) (st_batch_size st) n (st_job_dir st)
                (st_extras st))
      | None => Raise usage_error
      end
  | JobDir =>
      Ok (mk_ParseState (st_output_bucket st) (st_output_path st)
            (st_seen_output_path st) (st_batch_size st) (st_epochs st)
            (Some arg) (st_extras st))
  end.

(** The second pass: options are consumed left to right, each store action
    with its explicit argument or with the next string when that is an
    argument; every other string is an extra. *)
Fixpoint consume (args : list (string * ArgClass)) (st : ParseState)
  : result ParseState :=
  match args with
  | [] => Ok st
  | (s, ClassA) :: rest => consume rest (add_extra s st)
  | (s, ClassDash) :: rest => consume rest (add_extra s st)
  | (s, ClassO (None, _, _)) :: rest => consume rest (add_extra s st)
  | (s, ClassO (Some Help, option_string, explicit_arg)) :: rest =>
      match explicit_arg with
      | None => Raise (SystemExit 0)
      | Some e =>
          Raise (help_with_explicit_arg
                   (negb (startswith "--" option_string)) e)
      end
  | (s, ClassO (Some action, _, Some e)) :: rest =>
      match take_action action e st with
      | Raise x => Raise x
      | Ok st' => consume rest st'
      end
  | (s, ClassO (Some action, _, None)) :: rest =>
      match rest with
      | (v, ClassA) :: rest' =>
          match take_action action v st with
          | Raise x => Raise x
          | Ok st' => consume rest' st'
          end
      | _ => Raise usage_error
      end
  end.

(** [args], as the script reads it. *)
Record Namespace : Type := mk_Namespace {
  output_bucket : string;
  output_path : string;
  batch_size : Z;
  epochs : Z;
  job_dir : option string
}.

(** [parser.parse_args(argv)]: the two passes, then the check of the
    required actions, then the check that no string was left over. *)
Definition parse_args (argv : list string) : result Namespace :=
  match classify argv with
  | Raise e => Raise e
  | Ok cs =>
      match consume cs initial_state with
      | Raise e => Raise e
      | Ok st =>
          match st_output_bucket st, st_seen_output_path st with
          | Some bucket, true =>
              match st_extras st with
              | [] =>
                  Ok (mk_Namespace bucket (st_output_path st)
                        (st_batch_size st) (st_epochs st) (st_job_dir st))
              | _ :: _ => Raise usage_error
              end
          | _, _ => Raise usage_error
          end
      end
  end.

End Parser.

(** ** The script *)

Section Script.

Context (L : Libs).

(** [x / 255.0] *)
Definition _preprocess_x (x : ndarray Z) : M Features :=
  mret (np_true_divide x 255%float).

(** [to_categorical(y)] *)
Definition _preprocess_y (y : list Z) : M Labels :=
  lift (to_categorical y).

Definition prepare_data : M (Split * Split) :=
  LOGGER_info "Preparing and downloading data";;
  '(train_data, test_data) ← call MnistLoadData (mnist_load_data L) no_effect;
  let '(x_train, y_train) := train_data in
  let '(x_test, y_test) := test_data in
  x_train_norm ← _preprocess_x x_train;
  x_test_norm ← _preprocess_x x_test;
  y_train_cat ← _preprocess_y y_train;
  y_test_cat ← _preprocess_y y_test;
  let train_data_prep := (x_train_norm, y_train_cat) in
  let test_data_prep := (x_test_norm, y_test_cat) in
  mret (train_data_prep, test_data_prep).

(** [time.strftime(format)] reads the clock; it does not raise for the
    formats used here. *)
Definition strftime (format : string) : M string :=
  fun w => (Ok (time_strftime L format w),
            log_event (TimeStrftime format) None w).

Definition train_and_evaluate (train_data test_data : Split)
    (bucket_name path_in_bucket : string) (job_dir : option string)
    (batch_size epochs : Z) : M unit :=
  now ← strftime "%Y%m%d-%H%M%S";
  logdir ← lift (os_path_join job_dir ("logs/scalars/" +:+ now));
  LOGGER_info ("Writing TensorBoard logs to " +:+ logdir);;
  tb_callback ← call (TensorBoardCallback logdir)
                     (tensorboard_callback L logdir) no_effect;
  m ← call BuildModel (build_model L) no_effect;
  optimizer ← call OptimizersAdam (optimizers_adam L) no_effect;
  call ModelCompile (model_compile L m) no_effect;;
  let '(x_train, y_train) := train_data in
  let '(x_test, y_test) := test_data in
  call (ModelFit batch_size epochs logdir)
       (model_fit L m x_train y_train batch_size epochs logdir) no_effect;;
  '(test_loss, test_acc) ← call ModelEvaluate
                                (model_evaluate L m x_test y_test) no_effect;
  let localfn := "mymodel.h5" in
  call (ModelSave localfn) (model_save L m localfn)
       (write_local_file localfn);;
  now' ← strftime "%Y%m%d%H%M%S";
  let fn := "mnist_keras_" +:+ now' +:+ ".h5" in
  let output_path_gcs := posixpath_join path_in_bucket fn in
  call StorageClient (storage_client L) no_effect;;
  call (ClientBucket bucket_name) (client_bucket L bucket_name) no_effect;;
  let bucket := mk_Bucket bucket_name in
  call (BucketBlob bucket_name output_path_gcs)
       (bucket_blob L bucket output_path_gcs) no_effect;;
  let blob := mk_Blob bucket output_path_gcs in
  LOGGER_info ("Uploading model to " +:+ output_path_gcs);;
  call (BlobUploadFromFilename (bucket_name_of (blob_bucket blob))
          (blob_name_of blob) localfn)
       (blob_upload_from_filename L blob localfn) no_effect;;
  let metric_tag := "accuracyMnist" in
  let summary := mk_Summary [mk_SummaryValue metric_tag test_acc] in
  eval_path ← lift (os_path_join job_dir metric_tag);
  LOGGER_info ("Writing metrics to " +:+ eval_path);;
  call (FileWriter eval_path) (file_writer L eval_path) no_effect;;
  call (AddSummary eval_path summary)
       (writer_add_summary L eval_path summary) no_effect;;
  call (WriterFlush eval_path) (writer_flush L eval_path) no_effect.

(** The [__main__] block, on [sys.argv[1:]]. *)
Definition main (argv : list string) : M unit :=
  args ← lift (parse_args (builtin_int L) argv);
  let bucket_name := output_bucket args in
  let output_path := output_path args in
  let batch_size := batch_size args in
  let epochs := epochs args in
  let job_dir := job_dir args in
  '(train_data, test_data) ← prepare_data;
  train_and_evaluate train_data test_data bucket_name output_path job_dir
    batch_size epochs.

End Script.

(** * The vocabulary of the properties *)

(** ** Pixels and labels *)

(** What is checked of one normalised pixel [v / 255.0]: it is a finite
    binary64 value, it lies in [0,1] (as a float and as a rational), and it is
    within half a unit in the last place, 2^-54, of the rational v/255. *)
Definition normalized_ok (v : Z) (r : float) : bool :=
  PrimFloat.leb 0 r && PrimFloat.leb r 1 &&
  match float_to_Q r with
  | Some q =>
      Qle_bool 0 q && Qle_bool q 1 &&
      Qle_bool (Qabs (q - (v # 255))) (1 # 18014398509481984)
  | None => false
  end.

(** The row of a label that is a valid non-negative index. *)
Definition one_hot_row (num_classes : Z) (label : Z) : list float :=
  <[Z.to_nat label := 1%float]> (replicate (Z.to_nat num_classes) 0%float).

(** [np.max(y)], when [y] is not empty. *)
Definition largest_label (y : list Z) : option Z :=
  match y with
  | [] => None
  | y0 :: ys => Some (np_max y0 ys)
  end.

(** ** Traces of completed runs *)

Definition ok_event (c : Call) : Event := mk_Event c None.

(** The library calls of a completed run, in order: [now] and [now'] are the
    two answers of [time.strftime], [test_acc] the accuracy [m.evaluate]
    returned. *)
Definition completed_calls (jd bucket_name path_in_bucket : string)
    (batch_size epochs : Z) (now now' : string) (test_acc : float)
  : list Call :=
  let logdir := posixpath_join jd ("logs/scalars/" +:+ now) in
  let output_path_gcs :=
    posixpath_join path_in_bucket ("mnist_keras_" +:+ now' +:+ ".h5") in
  let eval_path := posixpath_join jd "accuracyMnist" in
  [ TimeStrftime "%Y%m%d-%H%M%S";
    LoggerInfo ("Writing TensorBoard logs to " +:+ logdir);
    TensorBoardCallback logdir;
    BuildModel;
    OptimizersAdam;
    ModelCompile;
    ModelFit batch_size epochs logdir;
    ModelEvaluate;
    ModelSave "mymodel.h5";
    TimeStrftime "%Y%m%d%H%M%S";
    StorageClient;
    ClientBucket bucket_name;
    BucketBlob bucket_name output_path_gcs;
    LoggerInfo ("Uploading model to " +:+ output_path_gcs);
    BlobUploadFromFilename bucket_name output_path_gcs "mymodel.h5";
    LoggerInfo ("Writing metrics to " +:+ eval_path);
    FileWriter eval_path;
    AddSummary eval_path
      (mk_Summary [mk_SummaryValue "accuracyMnist" test_acc]);
    WriterFlush eval_path ].

(** The scalar summaries written in a stretch of the trace: the directory of
    the writer and the summary, for each [add_summary] that answered. *)
Definition summaries_written (evs : list Event) : list (string * Summary) :=
  omap (fun ev =>
          match ev_call ev, ev_raised ev with
          | AddSummary logdir summary, None => Some (logdir, summary)
          | _, _ => None
          end) evs.

(** The calls of [blob.upload_from_filename]: bucket, object path, local
    file. *)
Definition uploads (evs : list Event) : list (string * string * string) :=
  omap (fun ev =>
          match ev_call ev with
          | BlobUploadFromFilename b p f => Some (b, p, f)
          | _ => None
          end) evs.

(** How many times [storage.Client()] was called. *)
Definition clients_created (evs : list Event) : nat :=
  length (omap (fun ev =>
                  match ev_call ev with
                  | StorageClient => Some tt
                  | _ => None
                  end) evs).

(** The file names given to [m.save]. *)
Definition saves (evs : list Event) : list string :=
  omap (fun ev =>
          match ev_call ev with
          | ModelSave f => Some f
          | _ => None
          end) evs.

(** ** Command lines *)

(** The parser reads the argument string [tok] as the option of [action]:
    the string is one of its option strings, an unambiguous abbreviation of
    one, or one of these followed by [=value]. *)
Definition selects (action : Action) (tok : string) : bool :=
  match _parse_optional tok with
  | Ok (Some (Some a, _, _)) => bool_decide (a = action)
  | _ => false
  end.

(** The explicit argument ([=value]) the parser finds in [tok]. *)
Definition explicit_arg_of (tok : string) : option string :=
  match _parse_optional tok with
  | Ok (Some (_, _, e)) => e
  | _ => None
  end.

(** No argument string of the command line gives the option. *)
Definition omits (action : Action) (argv : list string) : bool :=
  forallb (fun tok => negb (selects action tok)) argv.

(** The store action [a] was given the value [v] by the command line: as the
    explicit argument of an option string, or as the argument string after
    one. *)
Definition given (all : list (string * ArgClass)) (a : Action) (v : string)
  : Prop :=
  exists tok o,
    In (tok, ClassO (Some a, o, Some v)) all \/
    (In (tok, ClassO (Some a, o, None)) all /\ In (v, ClassA) all).

(** ** Steps and fail-fast runs *)

(** The kind of a library call. *)
Inductive Step : Type :=
| StepLog | StepClock | StepLoadData | StepTensorBoard | StepBuildModel
| StepOptimizer | StepCompile | StepFit | StepEvaluate | StepSave
| StepClient | StepBucket | StepBlob | StepUpload | StepFileWriter
| StepAddSummary | StepFlush.

#[global] Instance Step_eq_dec : EqDecision Step.
Proof. solve_decision. Defined.

Definition step_of (c : Call) : Step :=
  match c with
  | LoggerInfo _ => StepLog
  | MnistLoadData => StepLoadData
  | TimeStrftime _ => StepClock
  | TensorBoardCallback _ => StepTensorBoard
  | BuildModel => StepBuildModel
  | OptimizersAdam => StepOptimizer
  | ModelCompile => StepCompile
  | ModelFit _ _ _ => StepFit
  | ModelEvaluate => StepEvaluate
  | ModelSave _ => StepSave
  | StorageClient => StepClient
  | ClientBucket _ => StepBucket
  | BucketBlob _ _ => StepBlob
  | BlobUploadFromFilename _ _ _ => StepUpload
  | FileWriter _ => StepFileWriter
  | AddSummary _ _ => StepAddSummary
  | WriterFlush _ => StepFlush
  end.

Definition steps_of (evs : list Event) : list Step :=
  (fun ev => step_of (ev_call ev)) <$> evs.

(** The steps of the two functions, in program order. *)
Definition prepare_data_steps : list Step := [StepLog; StepLoadData].

Definition train_and_evaluate_steps : list Step :=
  [ StepClock; StepLog; StepTensorBoard; StepBuildModel; StepOptimizer;
    StepCompile; StepFit; StepEvaluate; StepSave; StepClock; StepClient;
    StepBucket; StepBlob; StepLog; StepUpload; StepLog; StepFileWriter;
    StepAddSummary; StepFlush ].

(** A run from the world [w] with outcome [out] is fail-fast for the steps
    [steps] when the events it added are calls that answered ([oks]),
    followed by at most one call that raised ([last]); the calls made are an
    initial segment of [steps], in order; a run that returns made all of them
    and none raised; and when a call raised, the run raises that very
    exception and made no call after it. *)
Definition fail_fast {A} (steps : list Step) (w : World)
    (out : result A * World) : Prop :=
  exists oks last : list Event,
    trace out.2 = trace w ++ oks ++ last /\
    Forall (fun ev => ev_raised ev = None) oks /\
    steps_of (oks ++ last) `prefix_of` steps /\
    match out.1 with
    | Ok _ => last = [] /\ steps_of oks = steps
    | Raise e => last = [] \/ exists c, last = [mk_Event c (Some e)]
    end.

(** The same, read off a list of events from left to right. *)
Fixpoint raised_only_last {A} (r : result A) (evs : list Event) : Prop :=
  match evs with
  | [] => True
  | ev :: rest =>
      match rest with
      | [] =>
          match ev_raised ev with
          | None => True
          | Some e => r = Raise e
          end
      | _ :: _ => ev_raised ev = None /\ raised_only_last r rest
      end
  end.

(** A call that raised is the last event of the run, and the run raises the
    exception of that call. *)
Definition propagates {A} (w : World) (out : result A * World) : Prop :=
  forall (pre post : list Event) (ev : Event) (e : exn),
    trace out.2 = trace w ++ pre ++ ev :: post ->
    ev_raised ev = Some e ->
    out.1 = Raise e /\ post = [].

Definition no_job_dir_error : exn :=
  TypeError "expected str, bytes or os.PathLike object, not NoneType".

(** ** Calls made and calls answered *)

(** The calls of [m.fit]: batch size, epochs and the log directory of the
    TensorBoard callback it was given. *)
Definition fits (evs : list Event) : list (Z * Z * string) :=
  omap (fun ev =>
          match ev_call ev with
          | ModelFit b e d => Some (b, e, d)
          | _ => None
          end) evs.

(** The log directories of the TensorBoard callbacks created. *)
Definition tensorboards (evs : list Event) : list string :=
  omap (fun ev =>
          match ev_call ev with
          | TensorBoardCallback d => Some d
          | _ => None
          end) evs.

Definition is_save (c : Call) : bool :=
  match c with ModelSave _ => true | _ => false end.

Definition is_upload (c : Call) : bool :=
  match c with BlobUploadFromFilename _ _ _ => true | _ => false end.

(** The calls that report the metric: opening the writer, adding the summary,
    flushing. *)
Definition is_metric_call (c : Call) : bool :=
  match c with
  | FileWriter _ | AddSummary _ _ | WriterFlush _ => true
  | _ => false
  end.

(** A call of the kind [kind] was made in [evs]. *)
Definition call_made (kind : Call -> bool) (evs : list Event) : bool :=
  existsb (fun ev => kind (ev_call ev)) evs.

(** A call of the kind [kind] was made in [evs] and answered. *)
Definition call_answered (kind : Call -> bool) (evs : list Event) : bool :=
  existsb (fun ev =>
             kind (ev_call ev)
             && match ev_raised ev with None => true | Some _ => false end)
          evs.

(** The message of [np.max] on an empty array. *)
Definition empty_labels_error : exn :=
  ValueError
    "zero-size array to reduction operation maximum which has no identity".



(** No option string of the command line is written with the two dashes
    alone after its [=], as in [--epochs=--].

    Of the values of an option [argparse] drops an argument string ["--"]
    ([_get_values]), so that the option is then stored as the empty list,
    whatever its type; [take_action] stores the string.  The properties of
    the values of the namespace are stated for command lines outside this
    corner. *)
Definition plain_values (argv : list string) : bool :=
  forallb (fun tok => negb (bool_decide (explicit_arg_of tok = Some "--")))
    argv.

(** * Concrete libraries and runs

    Used to run the script on concrete inputs. *)

Definition is_space (c : ascii) : bool :=
  let n := nat_of_ascii c in
  ((9 <=? n)%nat && (n <=? 13)%nat) || (n =? 32)%nat.

Fixpoint lstrip (s : string) : string :=
  match s with
  | String c s' => if is_space c then lstrip s' else s
  | EmptyString => s
  end.

Definition strip (s : string) : string :=
  String.rev (lstrip (String.rev (lstrip s))).

(** Decimal digits, where a single underscore may stand between two
    digits; [after_digit] tells whether the previous character was one. *)
Fixpoint digits_value (after_digit : bool) (acc : Z) (s : string)
  : option Z :=
  match s with
  | EmptyString => if after_digit then Some acc else None
  | String c s' =>
      if is_digit c
      then digits_value true (10 * acc + (Z.of_nat (nat_of_ascii c) - 48)) s'
      else if after_digit && Ascii.eqb c "_"%char
      then digits_value false acc s'
      else None
  end.

(** [int(s)] for an ASCII string: surrounding whitespace is dropped, a sign
    may come first, then the decimal digits. *)
Definition dec_int (s : string) : option Z :=
  match strip s with
  | String "-" s' => Z.opp <$> digits_value false 0 s'
  | String "+" s' => digits_value false 0 s'
  | s' => digits_value false 0 s'
  end.

(** Libraries that always answer: [mnist.load_data()] returns [raw], the
    clock stands at 2020-01-02 03:04:05, evaluation reports the loss 0.5 and
    the accuracy [acc]. *)
Definition demo_libs (raw : RawSplit * RawSplit) (acc : float) : Libs := {|
  Model := unit;
  mnist_load_data := fun _ => Ok raw;
  time_strftime := fun format _ =>
    if String.eqb format "%Y%m%d-%H%M%S"
    then "20200102-030405" else "20200102030405";
  tensorboard_callback := fun _ _ => Ok tt;
  build_model := fun _ => Ok tt;
  optimizers_adam := fun _ => Ok tt;
  model_compile := fun _ _ => Ok tt;
  model_fit := fun _ _ _ _ _ _ _ => Ok tt;
  model_evaluate := fun _ _ _ _ => Ok (0.5%float, acc);
  model_save := fun _ _ _ => Ok tt;
  storage_client := fun _ => Ok tt;
  client_bucket := fun _ _ => Ok tt;
  bucket_blob := fun _ _ _ => Ok tt;
  blob_upload_from_filename := fun _ _ _ => Ok tt;
  file_writer := fun _ _ => Ok tt;
  writer_add_summary := fun _ _ _ => Ok tt;
  writer_flush := fun _ _ => Ok tt;
  builtin_int := dec_int
|}.

(** A tiny synthetic dataset: two 1x2 images per split; the test split has
    no image of class 2. *)
Definition tiny_raw : RawSplit * RawSplit :=
  ((mk_ndarray [2%nat; 1%nat; 2%nat] [0; 255; 51; 102], [0; 2]),
   (mk_ndarray [2%nat; 1%nat; 2%nat] [255; 0; 51; 204], [0; 1])).

Definition empty_world : World := mk_World [] ∅.

(** What [prepare_data] makes of the tiny dataset: 51/255, 102/255 and
    204/255 are the binary64 values nearest to 0.2, 0.4 and 0.8. *)
Definition tiny_train : Split :=
  (mk_ndarray [2%nat; 1%nat; 2%nat]
     [0; 1; 0x1.999999999999ap-3; 0x1.999999999999ap-2]%float,
   [[1; 0; 0]; [0; 0; 1]]%float).

Definition tiny_test : Split :=
  (mk_ndarray [2%nat; 1%nat; 2%nat]
     [1; 0; 0x1.999999999999ap-3; 0x1.999999999999ap-1]%float,
   [[1; 0]; [0; 1]]%float).

(** The world after [prepare_data], started in the empty world. *)
Definition tiny_prepared_world : World :=
  mk_World
    [ mk_Event (LoggerInfo "Preparing and downloading data") None;
      mk_Event MnistLoadData None ] ∅.

(** A completed run, on the tiny dataset. *)
Definition demo_job_calls : list Call :=
  completed_calls "gs://jobs/1" "my-bucket" "models" 2 1
    "20200102-030405" "20200102030405" 0.75.

Definition demo_job_world : World :=
  mk_World (trace tiny_prepared_world ++ (ok_event <$> demo_job_calls))
           ({[ "mymodel.h5" ]} ∪ ∅).

(** A disk that is full when the model is saved: the run of the whole job
    stops at [m.save], with the exception of that call. *)
Definition disk_full : exn := LibraryError "h5py" "No space left on device".

Definition demo_libs_disk_full : Libs := {|
  Model := unit;
  mnist_load_data := mnist_load_data (demo_libs tiny_raw 0.75);
  time_strftime := time_strftime (demo_libs tiny_raw 0.75);
  tensorboard_callback := fun _ _ => Ok tt;
  build_model := fun _ => Ok tt;
  optimizers_adam := fun _ => Ok tt;
  model_compile := fun _ _ => Ok tt;
  model_fit := fun _ _ _ _ _ _ _ => Ok tt;
  model_evaluate := fun _ _ _ _ => Ok (0.5%float, 0.75%float);
  model_save := fun _ _ _ => Raise disk_full;
  storage_client := fun _ => Ok tt;
  client_bucket := fun _ _ => Ok tt;
  bucket_blob := fun _ _ _ => Ok tt;
  blob_upload_from_filename := fun _ _ _ => Ok tt;
  file_writer := fun _ _ => Ok tt;
  writer_add_summary := fun _ _ _ => Ok tt;
  writer_flush := fun _ _ => Ok tt;
  builtin_int := dec_int
|}.

(** * Properties *)

(** ** Normalisation of pixels *)

Lemma normalized_ok_all :
  forallb (fun n => normalized_ok (Z.of_nat n)
                      (PrimFloat.div (uint8_to_float64 (Z.of_nat n)) 255))
          (seq 0 256) = true.
Proof. vm_compute. reflexivity. Qed.

Lemma normalized_ok_uint8 (v : Z) :
  0 <= v <= 255 ->
  normalized_ok v (PrimFloat.div (uint8_to_float64 v) 255) = true.
Proof.
  intros Hv.
  pose proof normalized_ok_all as Hall.
  rewrite forallb_forall in Hall.
  specialize (Hall (Z.to_nat v)).
  rewrite Z2Nat.id in Hall by lia.
  apply Hall, in_seq. lia.
Qed.

(** C3.  Every pixel [v] with 0 <= v <= 255 of the array given to
    [_preprocess_x] is replaced, at the same position of an array of the same
    shape, by the binary64 quotient [v / 255.0]; that value lies in [0,1] and
    is the rational v/255 correctly rounded (within 2^-54 of it).  The call
    answers and leaves the world as it was. *)
Theorem C3_normalization_in_unit_interval
    (x : ndarray Z) (w : World) (i : nat) (v : Z) :
  data x !! i = Some v ->
  0 <= v <= 255 ->
  exists (out : Features) (r : float) (q : Q),
    _preprocess_x x w = (Ok out, w) /\
    shape out = shape x /\
    data out !! i = Some r /\
    r = PrimFloat.div (uint8_to_float64 v) 255 /\
    PrimFloat.leb 0 r = true /\ PrimFloat.leb r 1 = true /\
    float_to_Q r = Some q /\
    (0 <= q)%Q /\ (q <= 1)%Q /\
    (Qabs (q - (v # 255)) <= 1 # 18014398509481984)%Q.
Proof.
  intros Hi Hv.
  pose proof (normalized_ok_uint8 v Hv) as Hok.
  unfold normalized_ok in Hok.
  destruct (float_to_Q (PrimFloat.div (uint8_to_float64 v) 255))
    as [q|] eqn:Hq.
  2: { rewrite andb_false_r in Hok. discriminate. }
  rewrite !andb_true_iff in Hok.
  destruct Hok as [[H0 H1] [[Hq0 Hq1] Herr]].
  exists (np_true_divide x 255), (PrimFloat.div (uint8_to_float64 v) 255), q.
  repeat split; try assumption; try (apply Qle_bool_iff; assumption).
  cbn. rewrite list_lookup_fmap, Hi. reflexivity.
Qed.

Lemma C3_normalization_witness :
  exists (out : Features) (r : float) (q : Q),
    _preprocess_x (mk_ndarray [2%nat; 2%nat] [0; 128; 255; 7])
      (mk_World [] ∅) = (Ok out, mk_World [] ∅) /\
    shape out = [2%nat; 2%nat] /\
    data out !! 1%nat = Some r /\
    r = PrimFloat.div (uint8_to_float64 128) 255 /\
    PrimFloat.leb 0 r = true /\ PrimFloat.leb r 1 = true /\
    float_to_Q r = Some q /\
    (0 <= q)%Q /\ (q <= 1)%Q /\
    (Qabs (q - (128 # 255)) <= 1 # 18014398509481984)%Q.
Proof.
  apply (C3_normalization_in_unit_interval
           (mk_ndarray [2%nat; 2%nat] [0; 128; 255; 7]) (mk_World [] ∅)
           1%nat 128).
  - reflexivity.
  - lia.
Defined.

(** ** One-hot encoding of labels *)

(** [np_max y0 ys] is the largest element of [y0 :: ys]. *)
Lemma np_max_ge_init (ys : list Z) (y0 : Z) : y0 <= np_max y0 ys.
Proof.
  unfold np_max. revert y0.
  induction ys as [|y ys IH]; intros y0; simpl; [lia|].
  specialize (IH (Z.max y0 y)). lia.
Qed.

Lemma np_max_upper (ys : list Z) (y0 l : Z) :
  In l (y0 :: ys) -> l <= np_max y0 ys.
Proof.
  revert y0.
  induction ys as [|y ys IH]; intros y0 Hin.
  - destruct Hin as [->|[]]. unfold np_max. simpl. lia.
  - change (np_max y0 (y :: ys)) with (np_max (Z.max y0 y) ys).
    pose proof (np_max_ge_init ys (Z.max y0 y)) as Hge.
    destruct Hin as [->|[->|Hin]]; try lia.
    apply IH. right. exact Hin.
Qed.

Lemma np_max_in (ys : list Z) (y0 : Z) : In (np_max y0 ys) (y0 :: ys).
Proof.
  unfold np_max. revert y0.
  induction ys as [|y ys IH]; intros y0; simpl; [left; reflexivity|].
  destruct (IH (Z.max y0 y)) as [H|H].
  - rewrite <- H.
    destruct (Z.max_spec y0 y) as [[_ E]|[_ E]]; rewrite E; auto.
  - right. right. exact H.
Qed.

Lemma categorical_rows_in_range (num_classes : Z) (y : list Z) :
  (forall l, In l y -> 0 <= l < num_classes) ->
  categorical_rows num_classes y = Ok (one_hot_row num_classes <$> y).
Proof.
  induction y as [|l y IH]; intros Hy; simpl; [reflexivity|].
  assert (Hl : 0 <= l < num_classes) by (apply Hy; left; reflexivity).
  unfold categorical_row, np_index.
  replace (0 <=? l) with true by (symmetry; apply Z.leb_le; lia).
  replace (l <? num_classes) with true by (symmetry; apply Z.ltb_lt; lia).
  simpl. rewrite IH by (intros l' Hl'; apply Hy; right; exact Hl').
  reflexivity.
Qed.

Lemma one_hot_row_lookup (num_classes label : Z) (j : nat) :
  0 <= label < num_classes ->
  (j < Z.to_nat num_classes)%nat ->
  one_hot_row num_classes label !! j =
    Some (if decide (j = Z.to_nat label) then 1%float else 0%float).
Proof.
  intros Hl Hj. unfold one_hot_row.
  destruct (decide (j = Z.to_nat label)) as [->|Hne].
  - apply list_lookup_insert_eq. rewrite length_replicate. lia.
  - rewrite list_lookup_insert_ne by congruence.
    apply lookup_replicate_2. exact Hj.
Qed.

Lemma to_categorical_nonneg (y : list Z) :
  y <> [] ->
  (forall l, In l y -> 0 <= l) ->
  exists num_classes : Z,
    to_categorical y = Ok (one_hot_row num_classes <$> y) /\
    In (num_classes - 1) y /\
    (forall l, In l y -> 0 <= l < num_classes).
Proof.
  intros Hne Hpos. destruct y as [|y0 ys]; [congruence|].
  exists (np_max y0 ys + 1).
  assert (Hup : forall l, In l (y0 :: ys) -> 0 <= l < np_max y0 ys + 1).
  { intros l Hl. pose proof (np_max_upper ys y0 l Hl).
    specialize (Hpos l Hl). lia. }
  split; [|split].
  - unfold to_categorical.
    replace (np_max y0 ys + 1 <? 0) with false
      by (symmetry; apply Z.ltb_ge;
          specialize (Hup y0 (or_introl eq_refl)); lia).
    apply categorical_rows_in_range. exact Hup.
  - replace (np_max y0 ys + 1 - 1) with (np_max y0 ys) by lia.
    apply np_max_in.
  - exact Hup.
Qed.

(** C4, as amended.  For a non-empty vector of non-negative integer labels,
    [_preprocess_y] answers a matrix with one row per label; every row has
    length [num_classes], one more than the largest label of the vector that
    is encoded, and is 1 at the label's index and 0 everywhere else.  (The
    length is the number of classes C only when the label C-1 occurs in the
    vector.) *)
Theorem C4_one_hot_of_inferred_width (y : list Z) (w : World) :
  y <> [] ->
  (forall l, In l y -> 0 <= l) ->
  exists (rows : Labels) (num_classes : Z),
    _preprocess_y y w = (Ok rows, w) /\
    In (num_classes - 1) y /\
    (forall l, In l y -> 0 <= l < num_classes) /\
    length rows = length y /\
    forall (i : nat) (l : Z), y !! i = Some l ->
      exists row : list float,
        rows !! i = Some row /\
        length row = Z.to_nat num_classes /\
        forall j : nat, (j < Z.to_nat num_classes)%nat ->
          row !! j =
            Some (if decide (j = Z.to_nat l) then 1%float else 0%float).
Proof.
  intros Hne Hpos.
  destruct (to_categorical_nonneg y Hne Hpos) as (C & Hcat & Hmax & Hup).
  exists (one_hot_row C <$> y), C.
  split; [|split; [exact Hmax|split; [exact Hup|split]]].
  - unfold _preprocess_y, lift. rewrite Hcat. reflexivity.
  - apply length_fmap.
  - intros i l Hi. exists (one_hot_row C l). split; [|split].
    + rewrite list_lookup_fmap, Hi. reflexivity.
    + unfold one_hot_row. rewrite length_insert, length_replicate.
      reflexivity.
    + intros j Hj. apply one_hot_row_lookup; [|exact Hj].
      apply Hup. apply list_elem_of_In. eapply list_elem_of_lookup_2. exact Hi.
Qed.

Lemma C4_one_hot_witness :
  exists (rows : Labels) (num_classes : Z),
    _preprocess_y [2; 0; 1] (mk_World [] ∅) = (Ok rows, mk_World [] ∅) /\
    In (num_classes - 1) [2; 0; 1] /\
    (forall l, In l [2; 0; 1] -> 0 <= l < num_classes) /\
    length rows = length [2; 0; 1] /\
    forall (i : nat) (l : Z), [2; 0; 1] !! i = Some l ->
      exists row : list float,
        rows !! i = Some row /\
        length row = Z.to_nat num_classes /\
        forall j : nat, (j < Z.to_nat num_classes)%nat ->
          row !! j =
            Some (if decide (j = Z.to_nat l) then 1%float else 0%float).
Proof.
  apply (C4_one_hot_of_inferred_width [2; 0; 1] (mk_World [] ∅)).
  - discriminate.
  - intros l [<-|[<-|[<-|[]]]]; lia.
Defined.

(** C4, as stated, fails: the labels 0 and 1 lie in [0, C-1] for C = 3, and
    their vectors have length 2. *)
Lemma C4_length_is_not_the_class_count :
  (forall l, In l [0; 1] -> 0 <= l <= 3 - 1) /\
  _preprocess_y [0; 1] (mk_World [] ∅) =
    (Ok [[1%float; 0%float]; [0%float; 1%float]], mk_World [] ∅) /\
  ~ (exists (rows : Labels),
       _preprocess_y [0; 1] (mk_World [] ∅) = (Ok rows, mk_World [] ∅) /\
       forall (i : nat) (l : Z), [0; 1] !! i = Some l ->
         exists row : list float,
           rows !! i = Some row /\ length row = Z.to_nat 3).
Proof.
  split; [|split].
  - intros l [<-|[<-|[]]]; lia.
  - reflexivity.
  - intros (rows & Hrun & Hrows).
    cbv in Hrun. injection Hrun as <-.
    destruct (Hrows 0%nat 0 eq_refl) as (row & Hrow & Hlen).
    cbv in Hrow. injection Hrow as <-. discriminate Hlen.
Qed.

(** ** Preprocessing is a function of its input *)


(** ** The two splits are preprocessed alike *)

Lemma categorical_rows_lookup (num_classes : Z) (y : list Z)
    (rows : list (list float)) (i : nat) (l : Z) :
  categorical_rows num_classes y = Ok rows ->
  y !! i = Some l ->
  exists row, rows !! i = Some row /\ categorical_row num_classes l = Ok row.
Proof.
  revert rows i.
  induction y as [|l0 y IH]; intros rows i Hrows Hi; [discriminate|].
  simpl in Hrows.
  destruct (categorical_row num_classes l0) as [r0|] eqn:Hr0; [|discriminate].
  destruct (categorical_rows num_classes y) as [rs|] eqn:Hrs; [|discriminate].
  injection Hrows as <-.
  destruct i as [|i]; simpl in *.
  - injection Hi as <-. exists r0. split; [reflexivity|exact Hr0].
  - apply (IH rs i eq_refl Hi).
Qed.

Lemma to_categorical_lookup (y : list Z) (rows : list (list float))
    (i : nat) (l : Z) :
  to_categorical y = Ok rows ->
  y !! i = Some l ->
  exists top row,
    largest_label y = Some top /\
    rows !! i = Some row /\ categorical_row (top + 1) l = Ok row.
Proof.
  intros Hcat Hi. destruct y as [|y0 ys]; [discriminate|].
  unfold to_categorical in Hcat.
  destruct (np_max y0 ys + 1 <? 0); [discriminate|].
  destruct (categorical_rows_lookup _ _ _ _ _ Hcat Hi) as (row & Hrow & Hcr).
  exists (np_max y0 ys), row. repeat split; assumption.
Qed.

Lemma prepare_data_ok_inv (L : Libs) (w w' : World) (tr te : Split) :
  prepare_data L w = (Ok (tr, te), w') ->
  exists (x_train : ndarray Z) (y_train : list Z)
         (x_test : ndarray Z) (y_test : list Z),
    mnist_load_data L
      (log_event (LoggerInfo "Preparing and downloading data") None w)
      = Ok ((x_train, y_train), (x_test, y_test)) /\
    tr.1 = np_true_divide x_train 255 /\
    te.1 = np_true_divide x_test 255 /\
    to_categorical y_train = Ok tr.2 /\
    to_categorical y_test = Ok te.2.
Proof.
  unfold prepare_data, mbind, M_bind, LOGGER_info, call, _preprocess_x,
    _preprocess_y, lift, mret, M_ret.
  intros H.
  destruct (mnist_load_data L _) as [[[x_train y_train] [x_test y_test]]|]
    eqn:Hload; [|discriminate].
  destruct (to_categorical y_train) as [ytr|] eqn:Htr; [|discriminate].
  destruct (to_categorical y_test) as [yte|] eqn:Hte; [|discriminate].
  injection H as <- <- _.
  exists x_train, y_train, x_test, y_test. repeat split; assumption.
Qed.

(** C6, as amended.  When [prepare_data] answers, both splits went through
    the same two functions: each normalised split is [_preprocess_x] of the
    raw one and each encoded split is [_preprocess_y] of the raw one.  Equal
    raw pixels give equal normalised values in the two splits.  Equal raw
    labels give equal encoded rows when the two splits have the same largest
    label; the width of a row is inferred from its own split. *)
Theorem C6_splits_preprocessed_alike
    (L : Libs) (w w' : World) (tr te : Split) :
  prepare_data L w = (Ok (tr, te), w') ->
  exists (x_train : ndarray Z) (y_train : list Z)
         (x_test : ndarray Z) (y_test : list Z),
    mnist_load_data L
      (log_event (LoggerInfo "Preparing and downloading data") None w)
      = Ok ((x_train, y_train), (x_test, y_test)) /\
    (forall w0, _preprocess_x x_train w0 = (Ok tr.1, w0)) /\
    (forall w0, _preprocess_x x_test w0 = (Ok te.1, w0)) /\
    (forall w0, _preprocess_y y_train w0 = (Ok tr.2, w0)) /\
    (forall w0, _preprocess_y y_test w0 = (Ok te.2, w0)) /\
    (forall (i j : nat) (v : Z),
       data x_train !! i = Some v -> data x_test !! j = Some v ->
       data tr.1 !! i = data te.1 !! j /\
       data tr.1 !! i = Some (PrimFloat.div (uint8_to_float64 v) 255)) /\
    (forall (i j : nat) (l : Z),
       y_train !! i = Some l -> y_test !! j = Some l ->
       largest_label y_train = largest_label y_test ->
       tr.2 !! i = te.2 !! j /\ is_Some (tr.2 !! i)).
Proof.
  intros Hrun.
  destruct (prepare_data_ok_inv L w w' tr te Hrun)
    as (x_train & y_train & x_test & y_test
        & Hload & Hxtr & Hxte & Hytr & Hyte).
  exists x_train, y_train, x_test, y_test.
  split; [exact Hload|].
  split; [intros w0; unfold _preprocess_x; rewrite Hxtr; reflexivity|].
  split; [intros w0; unfold _preprocess_x; rewrite Hxte; reflexivity|].
  split; [intros w0; unfold _preprocess_y, lift; rewrite Hytr; reflexivity|].
  split; [intros w0; unfold _preprocess_y, lift; rewrite Hyte; reflexivity|].
  split.
  - intros i j v Hi Hj. rewrite Hxtr, Hxte. cbn.
    rewrite !list_lookup_fmap, Hi, Hj. split; reflexivity.
  - intros i j l Hi Hj Hmax.
    destruct (to_categorical_lookup _ _ _ _ Hytr Hi)
      as (top1 & row1 & Htop1 & Hrow1 & Hcr1).
    destruct (to_categorical_lookup _ _ _ _ Hyte Hj)
      as (top2 & row2 & Htop2 & Hrow2 & Hcr2).
    rewrite Htop1, Htop2 in Hmax. injection Hmax as ->.
    rewrite Hcr1 in Hcr2. injection Hcr2 as ->.
    rewrite Hrow1, Hrow2. split; [reflexivity|eexists; reflexivity].
Qed.

(** [prepare_data] on the tiny dataset. *)
Lemma tiny_prepare_data :
  prepare_data (demo_libs tiny_raw 0.75) empty_world
    = (Ok (tiny_train, tiny_test), tiny_prepared_world).
Proof. vm_compute. reflexivity. Qed.

Lemma C6_splits_preprocessed_alike_witness :
  exists (x_train : ndarray Z) (y_train : list Z)
         (x_test : ndarray Z) (y_test : list Z),
    mnist_load_data (demo_libs tiny_raw 0.75)
      (log_event (LoggerInfo "Preparing and downloading data") None
         empty_world)
      = Ok ((x_train, y_train), (x_test, y_test)) /\
    (forall w0, _preprocess_x x_train w0 = (Ok tiny_train.1, w0)) /\
    (forall w0, _preprocess_x x_test w0 = (Ok tiny_test.1, w0)) /\
    (forall w0, _preprocess_y y_train w0 = (Ok tiny_train.2, w0)) /\
    (forall w0, _preprocess_y y_test w0 = (Ok tiny_test.2, w0)) /\
    (forall (i j : nat) (v : Z),
       data x_train !! i = Some v -> data x_test !! j = Some v ->
       data tiny_train.1 !! i = data tiny_test.1 !! j /\
       data tiny_train.1 !! i
         = Some (PrimFloat.div (uint8_to_float64 v) 255)) /\
    (forall (i j : nat) (l : Z),
       y_train !! i = Some l -> y_test !! j = Some l ->
       largest_label y_train = largest_label y_test ->
       tiny_train.2 !! i = tiny_test.2 !! j /\ is_Some (tiny_train.2 !! i)).
Proof.
  apply (C6_splits_preprocessed_alike (demo_libs tiny_raw 0.75)
           empty_world tiny_prepared_world tiny_train tiny_test).
  vm_compute. reflexivity.
Defined.

(** C6, as stated, fails for labels: in the tiny dataset the first image of
    each split has the raw label 0, and the two encoded rows differ (the
    training split has labels up to 2, the test split up to 1). *)
Lemma C6_equal_labels_encoded_differently :
  prepare_data (demo_libs tiny_raw 0.75) empty_world
    = (Ok (tiny_train, tiny_test), tiny_prepared_world) /\
  tiny_raw.1.2 !! 0%nat = Some 0 /\
  tiny_raw.2.2 !! 0%nat = Some 0 /\
  tiny_train.2 !! 0%nat = Some [1; 0; 0]%float /\
  tiny_test.2 !! 0%nat = Some [1; 0]%float /\
  tiny_train.2 !! 0%nat <> tiny_test.2 !! 0%nat.
Proof.
  split; [vm_compute; reflexivity|].
  repeat split. discriminate.
Qed.

(** ** Completed runs of [train_and_evaluate] *)

Lemma trace_log_event (c : Call) (r : option exn) (w : World) :
  trace (log_event c r w) = trace w ++ [mk_Event c r].
Proof. reflexivity. Qed.

Lemma local_files_log_event (c : Call) (r : option exn) (w : World) :
  local_files (log_event c r w) = local_files w.
Proof. reflexivity. Qed.

Lemma trace_write_local_file (f : string) (w : World) :
  trace (write_local_file f w) = trace w.
Proof. reflexivity. Qed.

Lemma local_files_write_local_file (f : string) (w : World) :
  local_files (write_local_file f w) = {[ f ]} ∪ local_files w.
Proof. reflexivity. Qed.

(** The script's functions as plain functions of the world. *)
Ltac unfold_script :=
  cbv beta delta
    [train_and_evaluate prepare_data strftime LOGGER_info call lift
     _preprocess_x _preprocess_y os_path_join mbind M_bind mret M_ret
     no_effect] in *;
  cbv beta iota in *.

(** One library call of a run that is known to have completed: the call
    answered. *)
Ltac ok_step H :=
  match type of H with
  | context [match ?o with Ok _ => _ | Raise _ => _ end] =>
      let E := fresh "Hcall" in
      let a := fresh "a" in
      destruct o as [a|?] eqn:E; [|discriminate H];
      lazymatch type of a with
      | prod _ _ => destruct a as [? ?]
      | _ => idtac
      end
  end;
  cbv beta iota zeta in H.

(** The trace and the files of a world built by the script, as the initial
    ones followed by a list of events and a union of file names. *)
Ltac flat_trace :=
  repeat first
    [ rewrite trace_log_event
    | rewrite local_files_log_event
    | rewrite trace_write_local_file
    | rewrite local_files_write_local_file ];
  cbn [trace local_files];
  repeat rewrite <- app_assoc;
  cbn [app].

(** A completed run had a job directory, made the nineteen calls of
    [completed_calls] and nothing else, wrote the local file and evaluated
    the model once, before saving it. *)
Lemma train_and_evaluate_ok_inv (L : Libs) (train_data test_data : Split)
    (bucket_name path_in_bucket : string) (job_dir : option string)
    (batch_size epochs : Z) (w w' : World) (u : unit) :
  train_and_evaluate L train_data test_data bucket_name path_in_bucket
    job_dir batch_size epochs w = (Ok u, w') ->
  exists (jd : string) (m : Model L) (test_loss test_acc : float)
         (w_eval w_clock : World),
    let now := time_strftime L "%Y%m%d-%H%M%S" w in
    let now' := time_strftime L "%Y%m%d%H%M%S" w_clock in
    let calls := completed_calls jd bucket_name path_in_bucket batch_size
                   epochs now now' test_acc in
    job_dir = Some jd /\
    trace w' = trace w ++ (ok_event <$> calls) /\
    local_files w' = {[ "mymodel.h5" ]} ∪ local_files w /\
    trace w_eval = trace w ++ (ok_event <$> take 7 calls) /\
    model_evaluate L m test_data.1 test_data.2 w_eval
      = Ok (test_loss, test_acc) /\
    trace w_clock = trace w ++ (ok_event <$> take 9 calls).
Proof.
  destruct train_data as [x_train y_train], test_data as [x_test y_test].
  unfold_script. intros H.
  destruct job_dir as [jd|]; [|discriminate].
  repeat ok_step H.
  injection H as _ <-.
  lazymatch goal with
  | Heval : model_evaluate L ?m _ _ ?we = Ok (?l, ?a)
    |- context [time_strftime L "%Y%m%d%H%M%S" ?wc] =>
      exists jd, m, l, a, we, wc; cbv zeta;
      split; [reflexivity|];
      split; [flat_trace; reflexivity|];
      split; [flat_trace; reflexivity|];
      split; [flat_trace; reflexivity|];
      split; [exact Heval|flat_trace; reflexivity]
  end.
Qed.

(** [os.path.join(a, b)] for a relative [b]. *)
Lemma posixpath_join_relative (a b : string) :
  startswith "/" b = false ->
  posixpath_join a b =
    if (String.eqb a "" || endswith "/" a)%bool
    then a +:+ b else a +:+ "/" +:+ b.
Proof. intros Hb. unfold posixpath_join. rewrite Hb. reflexivity. Qed.


(** C2.  Every completed run of [train_and_evaluate] creates one storage
    client and calls [upload_from_filename] exactly once: on the bucket
    [bucket_name], for the object [os.path.join(path_in_bucket, fn)] where
    [fn] is 'mnist_keras_' + timestamp + '.h5' and the timestamp is what
    [time.strftime("%Y%m%d%H%M%S")] answered in this run, after the model was
    saved. *)
Theorem C2_one_upload_to_timestamped_path
    (L : Libs) (train_data test_data : Split)
    (bucket_name path_in_bucket : string) (job_dir : option string)
    (batch_size epochs : Z) (w w' : World) (u : unit) :
  train_and_evaluate L train_data test_data bucket_name path_in_bucket
    job_dir batch_size epochs w = (Ok u, w') ->
  exists (pre post : list Event) (w_clock : World),
    let timestamp := time_strftime L "%Y%m%d%H%M%S" w_clock in
    let fn := "mnist_keras_" +:+ timestamp +:+ ".h5" in
    trace w' =
      trace w ++ pre ++ ok_event (TimeStrftime "%Y%m%d%H%M%S") :: post /\
    trace w_clock = trace w ++ pre /\
    uploads (pre ++ ok_event (TimeStrftime "%Y%m%d%H%M%S") :: post)
      = [ (bucket_name, posixpath_join path_in_bucket fn, "mymodel.h5") ] /\
    clients_created (pre ++ ok_event (TimeStrftime "%Y%m%d%H%M%S") :: post)
      = 1%nat /\
    posixpath_join path_in_bucket fn =
      if (String.eqb path_in_bucket "" || endswith "/" path_in_bucket)%bool
      then path_in_bucket +:+ fn else path_in_bucket +:+ "/" +:+ fn.
Proof.
  intros Hrun.
  destruct (train_and_evaluate_ok_inv _ _ _ _ _ _ _ _ _ _ _ Hrun)
    as (jd & m & test_loss & test_acc & w_eval & w_clock & H).
  cbv zeta in H.
  destruct H as (Hjd & Htrace & _ & _ & _ & Hclock).
  set (calls := completed_calls _ _ _ _ _ _ _ _) in *.
  exists (ok_event <$> take 9 calls), (ok_event <$> drop 10 calls), w_clock.
  cbv zeta.
  split; [rewrite Htrace; reflexivity|].
  split; [exact Hclock|].
  split; [reflexivity|].
  split; [reflexivity|].
  apply posixpath_join_relative. reflexivity.
Qed.

(** C9.  Whatever the arguments, a completed run of [train_and_evaluate]
    saves the model once, to the local file 'mymodel.h5', uploads from that
    same file, and removes nothing: when it returns, the local files are those
    there were before, and 'mymodel.h5'. *)
Theorem C9_local_model_file_is_kept
    (L : Libs) (train_data test_data : Split)
    (bucket_name path_in_bucket : string) (job_dir : option string)
    (batch_size epochs : Z) (w w' : World) (u : unit) :
  train_and_evaluate L train_data test_data bucket_name path_in_bucket
    job_dir batch_size epochs w = (Ok u, w') ->
  exists evs : list Event,
    trace w' = trace w ++ evs /\
    saves evs = ["mymodel.h5"] /\
    (forall b p f, In (b, p, f) (uploads evs) -> f = "mymodel.h5") /\
    local_files w' = {[ "mymodel.h5" ]} ∪ local_files w /\
    "mymodel.h5" ∈ local_files w' /\
    local_files w ⊆ local_files w'.
Proof.
  intros Hrun.
  destruct (train_and_evaluate_ok_inv _ _ _ _ _ _ _ _ _ _ _ Hrun)
    as (jd & m & test_loss & test_acc & w_eval & w_clock & H).
  cbv zeta in H.
  destruct H as (_ & Htrace & Hfiles & _).
  eexists. split; [exact Htrace|].
  split; [reflexivity|].
  split; [intros b p f [Heq|[]]; congruence|].
  split; [exact Hfiles|].
  rewrite Hfiles. split.
  - apply elem_of_union_l, elem_of_singleton. reflexivity.
  - apply union_subseteq_r.
Qed.

Lemma demo_job_completes :
  train_and_evaluate (demo_libs tiny_raw 0.75) tiny_train tiny_test
    "my-bucket" "models" (Some "gs://jobs/1") 2 1 tiny_prepared_world
    = (Ok tt, demo_job_world).
Proof. reflexivity. Qed.



Lemma C2_one_upload_witness :
  exists (pre post : list Event) (w_clock : World),
    let timestamp :=
      time_strftime (demo_libs tiny_raw 0.75) "%Y%m%d%H%M%S" w_clock in
    let fn := "mnist_keras_" +:+ timestamp +:+ ".h5" in
    trace demo_job_world =
      trace tiny_prepared_world ++
        pre ++ ok_event (TimeStrftime "%Y%m%d%H%M%S") :: post /\
    trace w_clock = trace tiny_prepared_world ++ pre /\
    uploads (pre ++ ok_event (TimeStrftime "%Y%m%d%H%M%S") :: post)
      = [ ("my-bucket", posixpath_join "models" fn, "mymodel.h5") ] /\
    clients_created (pre ++ ok_event (TimeStrftime "%Y%m%d%H%M%S") :: post)
      = 1%nat /\
    posixpath_join "models" fn =
      if (String.eqb "models" "" || endswith "/" "models")%bool
      then "models" +:+ fn else "models" +:+ "/" +:+ fn.
Proof.
  apply (C2_one_upload_to_timestamped_path (demo_libs tiny_raw 0.75)
           tiny_train tiny_test "my-bucket" "models" (Some "gs://jobs/1")
           2 1 tiny_prepared_world demo_job_world tt).
  reflexivity.
Defined.

Lemma C9_local_model_file_witness :
  exists evs : list Event,
    trace demo_job_world = trace tiny_prepared_world ++ evs /\
    saves evs = ["mymodel.h5"] /\
    (forall b p f, In (b, p, f) (uploads evs) -> f = "mymodel.h5") /\
    local_files demo_job_world = {[ "mymodel.h5" ]} ∪ ∅ /\
    "mymodel.h5" ∈ local_files demo_job_world /\
    (∅ : gset string) ⊆ local_files demo_job_world.
Proof.
  apply (C9_local_model_file_is_kept (demo_libs tiny_raw 0.75)
           tiny_train tiny_test "my-bucket" "models" (Some "gs://jobs/1")
           2 1 tiny_prepared_world demo_job_world tt).
  reflexivity.
Defined.

(** ** The command line *)

Example selects_examples :
  selects OutputBucket "--output-bucket" = true /\
  selects OutputBucket "--output-bucket=models" = true /\
  selects OutputBucket "--output-b" = true /\
  selects OutputBucket "--output" = false /\
  selects OutputBucket "--output-path" = false /\
  selects OutputPath "--output-p=x" = true /\
  selects Help "-h" = true /\
  selects JobDir "--j" = true /\
  omits OutputBucket ["--output-path"; "p"; "--epochs"; "3"] = true /\
  omits OutputPath ["--output-path"; "p"; "--epochs"; "3"] = false.
Proof. repeat split. Qed.


(** Every classified string is a string of the command line, and one
    classified as an option is what [_parse_optional] made of it. *)
Lemma classify_spec (argv : list string) (cs : list (string * ArgClass)) :
  classify argv = Ok cs ->
  forall tok c, In (tok, c) cs ->
    In tok argv /\
    forall t, c = ClassO t -> _parse_optional tok = Ok (Some t).
Proof.
  revert cs. induction argv as [|a rest IH]; intros cs H tok c Hin.
  - injection H as <-. destruct Hin.
  - simpl in H. destruct (String.eqb a "--") eqn:Hdash.
    + injection H as <-. destruct Hin as [Heq|Hin].
      * injection Heq as <- <-. split; [left; reflexivity|discriminate].
      * apply in_map_iff in Hin. destruct Hin as (s & Heq & Hs).
        injection Heq as <- <-. split; [right; exact Hs|discriminate].
    + destruct (_parse_optional a) as [t|] eqn:Hp; [|discriminate].
      destruct (classify rest) as [cs'|] eqn:Hc; [|discriminate].
      injection H as <-. destruct Hin as [Heq|Hin].
      * injection Heq as <- <-. split; [left; reflexivity|].
        intros t' Ht'. destruct t; [|discriminate].
        injection Ht' as <-. exact Hp.
      * destruct (IH cs' eq_refl tok c Hin) as [H1 H2].
        split; [right; exact H1|exact H2].
Qed.


Section Consume.

Context (int_of_str : string -> option Z).
Context (all : list (string * ArgClass)).

(** The equations of [consume], case by case. *)
Lemma consume_extra (s : string) (c : ArgClass)
    (rest : list (string * ArgClass)) (st : ParseState) :
  (c = ClassA \/ c = ClassDash \/ exists o e, c = ClassO (None, o, e)) ->
  consume int_of_str ((s, c) :: rest) st
    = consume int_of_str rest (add_extra s st).
Proof. intros [->|[->|(o & e & ->)]]; reflexivity. Qed.

Lemma consume_help (s o : string) (e : option string)
    (rest : list (string * ArgClass)) (st : ParseState) :
  consume int_of_str ((s, ClassO (Some Help, o, e)) :: rest) st
    = Raise (match e with
             | None => SystemExit 0
             | Some x => help_with_explicit_arg (negb (startswith "--" o)) x
             end).
Proof. destruct e; reflexivity. Qed.

Lemma consume_store_explicit (a : Action) (s o v : string)
    (rest : list (string * ArgClass)) (st : ParseState) :
  a <> Help ->
  consume int_of_str ((s, ClassO (Some a, o, Some v)) :: rest) st
    = match take_action int_of_str a v st with
      | Raise x => Raise x
      | Ok st' => consume int_of_str rest st'
      end.
Proof. intros Ha. destruct a; [congruence|reflexivity..]. Qed.

Lemma consume_store_next (a : Action) (s o v : string)
    (rest : list (string * ArgClass)) (st : ParseState) :
  a <> Help ->
  consume int_of_str
    ((s, ClassO (Some a, o, None)) :: (v, ClassA) :: rest) st
    = match take_action int_of_str a v st with
      | Raise x => Raise x
      | Ok st' => consume int_of_str rest st'
      end.
Proof. intros Ha. destruct a; [congruence|reflexivity..]. Qed.

Lemma consume_store_missing (a : Action) (s o : string)
    (rest : list (string * ArgClass)) (st : ParseState) :
  a <> Help ->
  match rest with (_, ClassA) :: _ => False | _ => True end ->
  consume int_of_str ((s, ClassO (Some a, o, None)) :: rest) st
    = Raise usage_error.
Proof.
  intros Ha Hrest.
  destruct a; [congruence|..];
    destruct rest as [|[v [| |]] rest']; try reflexivity; destruct Hrest.
Qed.


(** An invariant of the namespace that extras keep and that every action
    taken from the command line keeps holds after the second pass. *)
Lemma consume_invariant (Q : ParseState -> Prop) :
  (forall st s, Q st -> Q (add_extra s st)) ->
  (forall st st' a v,
     given all a v ->
     take_action int_of_str a v st = Ok st' -> Q st -> Q st') ->
  forall (n : nat) (cs : list (string * ArgClass)) (st st' : ParseState),
    (length cs <= n)%nat ->
    (forall x, In x cs -> In x all) ->
    consume int_of_str cs st = Ok st' ->
    Q st -> Q st'.
Proof.
  intros Hextra Htake.
  induction n as [|n IH]; intros cs st st' Hlen Hincl Hrun HQ.
  - destruct cs; [|simpl in Hlen; lia]. injection Hrun as <-. exact HQ.
  - destruct cs as [|[s c] rest]; [injection Hrun as <-; exact HQ|].
    simpl in Hlen.
    assert (Hrest : forall x, In x rest -> In x all)
      by (intros x Hx; apply Hincl; right; exact Hx).
    assert (Hhead : In (s, c) all) by (apply Hincl; left; reflexivity).
    destruct c as [|[[[a|] o] e]|].
    + rewrite consume_extra in Hrun by auto.
      apply (IH rest (add_extra s st) st'); auto. lia.
    + destruct (decide (a = Help)) as [->|Ha].
      { rewrite consume_help in Hrun. discriminate. }
      destruct e as [v|].
      * rewrite consume_store_explicit in Hrun by exact Ha.
        destruct (take_action int_of_str a v st) as [st1|] eqn:Hact;
          [|discriminate].
        apply (IH rest st1 st'); auto; [lia|].
        apply (Htake st st1 a v); auto.
        exists s, o. left. exact Hhead.
      * destruct rest as [|[v c'] rest'].
        { rewrite consume_store_missing in Hrun by auto. discriminate. }
        destruct c';
          try (rewrite consume_store_missing in Hrun by auto; discriminate).
        rewrite consume_store_next in Hrun by exact Ha.
        destruct (take_action int_of_str a v st) as [st1|] eqn:Hact;
          [|discriminate].
        apply (IH rest' st1 st'); auto.
        -- simpl in Hlen. lia.
        -- intros x Hx. apply Hrest. right. exact Hx.
        -- apply (Htake st st1 a v); auto.
           exists s, o. right. split; [exact Hhead|].
           apply Hrest. left. reflexivity.
    + rewrite consume_extra in Hrun by eauto.
      apply (IH rest (add_extra s st) st'); auto. lia.
    + rewrite consume_extra in Hrun by auto.
      apply (IH rest (add_extra s st) st'); auto. lia.
Qed.



End Consume.

Lemma given_selects (argv : list string) (cs : list (string * ArgClass))
    (a : Action) (v : string) :
  classify argv = Ok cs ->
  given cs a v ->
  exists tok,
    In tok argv /\ selects a tok = true /\
    (explicit_arg_of tok = Some v \/
     (explicit_arg_of tok = None /\ In v argv)).
Proof.
  intros Hc (tok & o & [Hin|[Hin Hv]]).
  - destruct (classify_spec argv cs Hc _ _ Hin) as [Htok Hp].
    specialize (Hp _ eq_refl).
    exists tok. unfold selects, explicit_arg_of. rewrite Hp.
    split; [exact Htok|]. split; [apply bool_decide_eq_true_2; reflexivity|].
    left. reflexivity.
  - destruct (classify_spec argv cs Hc _ _ Hin) as [Htok Hp].
    specialize (Hp _ eq_refl).
    destruct (classify_spec argv cs Hc _ _ Hv) as [Hvin _].
    exists tok. unfold selects, explicit_arg_of. rewrite Hp.
    split; [exact Htok|]. split; [apply bool_decide_eq_true_2; reflexivity|].
    right. split; [reflexivity|exact Hvin].
Qed.

(** Where the namespace of a successful parse comes from: the bucket and the
    path were given on the command line, and so was the job directory unless
    it is the default [None]. *)
Lemma parse_args_ok_sources (int_of_str : string -> option Z)
    (argv : list string) (ns : Namespace) :
  parse_args int_of_str argv = Ok ns ->
  (exists tok,
     In tok argv /\ selects OutputBucket tok = true /\
     (explicit_arg_of tok = Some (output_bucket ns) \/
      (explicit_arg_of tok = None /\ In (output_bucket ns) argv))) /\
  (exists tok,
     In tok argv /\ selects OutputPath tok = true /\
     (explicit_arg_of tok = Some (output_path ns) \/
      (explicit_arg_of tok = None /\ In (output_path ns) argv))) /\
  (job_dir ns = None \/
   exists tok, In tok argv /\ selects JobDir tok = true).
Proof.
  unfold parse_args. intros H.
  destruct (classify argv) as [cs|] eqn:Hc; [|discriminate].
  destruct (consume int_of_str cs initial_state) as [st|] eqn:Hrun;
    [|discriminate].
  pose (Q := fun st : ParseState =>
    (forall b, st_output_bucket st = Some b -> given cs OutputBucket b) /\
    (st_seen_output_path st = true ->
       given cs OutputPath (st_output_path st)) /\
    (st_job_dir st = None \/ exists v, given cs JobDir v)).
  assert (Hextra : forall st0 s, Q st0 -> Q (add_extra s st0))
    by (intros st0 s HQ0; exact HQ0).
  assert (Htake : forall st0 st1 a v,
            given cs a v -> take_action int_of_str a v st0 = Ok st1 ->
            Q st0 -> Q st1).
  { intros st0 st1 a v Hgiven Hact (Hb & Hp & Hj).
    destruct a; simpl in Hact; try discriminate;
      try (destruct (int_of_str v); [|discriminate]);
      injection Hact as <-; cbn;
      repeat split; auto; try (intros b Hb'; congruence).
    - intros b Hb'. injection Hb' as <-. exact Hgiven.
    - right. exists v. exact Hgiven. }
  assert (Hinit : Q initial_state).
  { repeat split; cbn; try discriminate. left. reflexivity. }
  assert (HQ : Q st).
  { apply (consume_invariant int_of_str cs Q Hextra Htake
             (length cs) cs initial_state st); auto. }
  destruct HQ as (Hb & Hp & Hj).
  destruct (st_output_bucket st) as [bucket|] eqn:Hbucket; [|discriminate].
  destruct (st_seen_output_path st) eqn:Hseen; [|discriminate].
  destruct (st_extras st); [|discriminate].
  injection H as <-. cbn.
  split; [|split].
  - apply (given_selects argv cs); auto.
  - apply (given_selects argv cs); auto.
  - destruct Hj as [Hj|[v Hv]]; [left; exact Hj|right].
    destruct (given_selects argv cs _ _ Hc Hv) as (tok & Hin & Hsel & _).
    exists tok. split; assumption.
Qed.


Lemma omits_not_selected (a : Action) (argv : list string) (tok : string) :
  omits a argv = true -> In tok argv -> selects a tok = false.
Proof.
  unfold omits. intros H Hin. rewrite forallb_forall in H.
  specialize (H tok Hin). apply negb_true_iff in H. exact H.
Qed.

Lemma lookup_option_In (s : string) (tbl : list (string * Action))
    (a : Action) :
  lookup_option s tbl = Some a -> In (s, a) tbl.
Proof.
  induction tbl as [|[o a'] tbl IH]; simpl; [discriminate|].
  destruct (String.eqb s o) eqn:Hs.
  - intros H. injection H as <-. apply String.eqb_eq in Hs. subst o.
    left. reflexivity.
  - intros H. right. apply IH. exact H.
Qed.

Lemma split_eq_spec (s l r : string) :
  split_eq s = Some (l, r) -> s = l +:+ "=" +:+ r.
Proof.
  revert l. induction s as [|c s IH]; intros l H; [discriminate|].
  simpl in H. destruct (Ascii.eqb c "=") eqn:Hc.
  - injection H as <- <-. apply Ascii.eqb_eq in Hc. subst c. reflexivity.
  - destruct (split_eq s) as [[l' r']|]; [|discriminate].
    injection H as <- <-. rewrite (IH l' eq_refl) at 1. reflexivity.
Qed.

Lemma get_option_tuples_inv (tok o : string) (a : Action)
    (e : option string) :
  In (a, o, e) (_get_option_tuples tok) ->
  In (o, a) option_string_actions /\
  (a = Help \/
   (startswith (split_option tok).1 o = true /\
    startswith "--" tok = true)).
Proof.
  unfold _get_option_tuples.
  destruct tok as [|c0 [|c1 tail]]; try (intros []).
  destruct (Ascii.eqb c0 "-") eqn:Hc0; [|intros []].
  apply Ascii.eqb_eq in Hc0. subst c0.
  destruct (Ascii.eqb c1 "-") eqn:Hc1; cbn [andb].
  - apply Ascii.eqb_eq in Hc1. subst c1.
    destruct (split_option (String "-" (String "-" tail))) as [p ex] eqn:Hp.
    intros Hin. apply list_elem_of_In, list_elem_of_omap in Hin.
    destruct Hin as ([o' a'] & Hin & Hf).
    destruct (startswith p o') eqn:Hs; [|discriminate].
    injection Hf as <- <- <-. apply list_elem_of_In in Hin.
    split; [exact Hin|]. right. split; [exact Hs|].
    destruct tail; reflexivity.
  - intros Hin. apply list_elem_of_In, list_elem_of_omap in Hin.
    destruct Hin as ([o' a'] & Hin & Hf).
    apply list_elem_of_In in Hin.
    assert (Ha : a' = a).
    { destruct (String.eqb o' _); [injection Hf as <- _ _; reflexivity|].
      destruct (startswith _ o'); [injection Hf as <- _ _; reflexivity|].
      discriminate. }
    assert (Ho : o' = o).
    { destruct (String.eqb o' _); [injection Hf as _ <- _; reflexivity|].
      destruct (startswith _ o'); [injection Hf as _ <- _; reflexivity|].
      discriminate. }
    subst a' o'. split; [exact Hin|].
    destruct Hin as [Hl|[Hl|[Hl|[Hl|[Hl|[Hl|[Hl|[]]]]]]]];
      injection Hl as <- <-; auto; exfalso;
      (destruct (String.eqb _ (String "-" (String c1 ""))) eqn:He;
       [apply String.eqb_eq in He; discriminate He|]);
      (destruct (startswith (String "-" (String c1 tail)) _) eqn:Hs;
       [|discriminate Hf]);
      unfold startswith in Hs; simpl in Hs;
      destruct (ascii_dec c1 "-") as [->|]; try discriminate Hs;
      rewrite Ascii.eqb_refl in Hc1; discriminate Hc1.
Qed.

(** A store option is read off an argument string only when the string
    starts with two dashes and its part before ['='] is an initial segment
    of the option string. *)
Lemma parse_optional_is_abbreviation (tok o : string) (a : Action)
    (e : option string) :
  _parse_optional tok = Ok (Some (Some a, o, e)) ->
  In (o, a) option_string_actions /\
  (a = Help \/
   (startswith (split_option tok).1 o = true /\
    startswith "--" tok = true)).
Proof.
  unfold _parse_optional.
  destruct tok as [|c rest]; [discriminate|].
  destruct (Ascii.eqb c "-") eqn:Hc; [|discriminate].
  apply Ascii.eqb_eq in Hc. subst c. cbn [negb].
  destruct (lookup_option (String "-" rest) option_string_actions)
    as [a0|] eqn:Hl.
  { intros H. injection H as <- <- <-.
    apply lookup_option_In in Hl. split; [exact Hl|].
    destruct Hl as [Hl|[Hl|[Hl|[Hl|[Hl|[Hl|[Hl|[]]]]]]]];
      injection Hl as <- <-; auto; right; split; reflexivity. }
  destruct rest as [|c1 tail]; [discriminate|].
  destruct (split_eq (String "-" (String c1 tail))) as [[l r]|] eqn:Hs.
  { destruct (lookup_option l option_string_actions) as [a0|] eqn:Hl2.
    { intros H. injection H as <- <- <-.
      apply lookup_option_In in Hl2. split; [exact Hl2|].
      unfold split_option. rewrite Hs. cbn [fst].
      rewrite (split_eq_spec _ _ _ Hs).
      destruct Hl2 as [Hl2|[Hl2|[Hl2|[Hl2|[Hl2|[Hl2|[Hl2|[]]]]]]]];
        injection Hl2 as <- <-; auto; right; split; reflexivity. }
    destruct (_get_option_tuples (String "-" (String c1 tail)))
      as [|[[a1 o1] e1] [|? ?]] eqn:Ht; try discriminate.
    - destruct (negative_number_like _); [discriminate|].
      destruct (contains_char _ _); discriminate.
    - intros H. injection H as <- <- <-.
      apply get_option_tuples_inv with (e := e1).
      rewrite Ht. left. reflexivity. }
  destruct (_get_option_tuples (String "-" (String c1 tail)))
    as [|[[a1 o1] e1] [|? ?]] eqn:Ht; try discriminate.
  - destruct (negative_number_like _); [discriminate|].
    destruct (contains_char _ _); discriminate.
  - intros H. injection H as <- <- <-.
    apply get_option_tuples_inv with (e := e1).
    rewrite Ht. left. reflexivity.
Qed.

(** The same, for the argument strings [selects] accepts. *)
Lemma selects_is_abbreviation (a : Action) (tok : string) :
  a <> Help ->
  selects a tok = true ->
  exists o,
    In (o, a) option_string_actions /\
    startswith (split_option tok).1 o = true /\
    startswith "--" tok = true.
Proof.
  unfold selects. intros Ha H.
  destruct (_parse_optional tok) as [[[[[a'|] o] e]|]|] eqn:Hp;
    try discriminate.
  apply bool_decide_eq_true_1 in H. subst a'.
  destruct (parse_optional_is_abbreviation _ _ _ _ Hp) as [Hin [Hh|Hs]];
    [contradiction|].
  exists o. split; [exact Hin|exact Hs].
Qed.

(** A sufficient condition for [omits] that does not mention the parser: no
    argument string starts with two dashes and has, before its ['='] if any,
    an initial segment of the option string [o] of the action. *)
Lemma omits_of_no_abbreviation (a : Action) (o : string)
    (argv : list string) :
  a <> Help ->
  (forall o', In (o', a) option_string_actions -> o' = o) ->
  forallb (fun tok =>
             negb (startswith "--" tok && startswith (split_option tok).1 o))
          argv = true ->
  omits a argv = true.
Proof.
  intros Ha Huniq H. unfold omits.
  rewrite forallb_forall in *. intros tok Hin.
  specialize (H tok Hin).
  destruct (selects a tok) eqn:Hsel; [|reflexivity].
  destruct (selects_is_abbreviation a tok Ha Hsel) as (o' & Ho' & Hp & Hd).
  rewrite (Huniq o' Ho') in Hp. rewrite Hp, Hd in H. discriminate.
Qed.

Example omits_of_no_abbreviation_example :
  omits OutputBucket ["--output-path=models"; "--epochs"; "3"; "-o"] = true.
Proof.
  apply (omits_of_no_abbreviation OutputBucket "--output-bucket").
  - discriminate.
  - intros o' [H|[H|[H|[H|[H|[H|[H|[]]]]]]]]; congruence.
  - reflexivity.
Qed.

Lemma main_parse_raise (L : Libs) (argv : list string) (w : World)
    (e : exn) :
  parse_args (builtin_int L) argv = Raise e ->
  main L argv w = (Raise e, w).
Proof.
  intros H. unfold main, mbind, M_bind, lift. rewrite H. reflexivity.
Qed.




(** ** Exceptions propagate *)

(** From the left-to-right reading to the two segments of [fail_fast]. *)
Lemma raised_only_last_split {A} (r : result A) (evs : list Event) :
  raised_only_last r evs ->
  exists oks last,
    evs = oks ++ last /\
    Forall (fun ev => ev_raised ev = None) oks /\
    (last = [] \/ exists c e, last = [mk_Event c (Some e)] /\ r = Raise e).
Proof.
  induction evs as [|ev rest IH]; intros H.
  - exists [], []. repeat split; auto.
  - destruct rest as [|ev' rest'].
    + simpl in H. destruct ev as [c [e|]].
      * exists [], [mk_Event c (Some e)]. repeat split; auto.
        right. exists c, e. split; [reflexivity|exact H].
      * exists [mk_Event c None], []. repeat split; auto.
    + destruct H as [Hev Hrest].
      destruct (IH Hrest) as (oks & last & Heq & Hoks & Hlast).
      exists (ev :: oks), last. rewrite Heq. repeat split; auto.
Qed.

Lemma fail_fast_of_events {A} (steps : list Step) (w w' : World)
    (r : result A) (evs : list Event) :
  trace w' = trace w ++ evs ->
  raised_only_last r evs ->
  steps_of evs `prefix_of` steps ->
  (is_ok r = true -> steps_of evs = steps) ->
  fail_fast steps w (r, w').
Proof.
  intros Htrace Hlast Hprefix Hall.
  destruct (raised_only_last_split r evs Hlast)
    as (oks & last & -> & Hoks & Hl).
  exists oks, last. cbn [fst snd].
  split; [exact Htrace|]. split; [exact Hoks|]. split; [exact Hprefix|].
  destruct r as [a|e].
  - destruct Hl as [->|(c & e & _ & Hr)]; [|discriminate].
    rewrite app_nil_r in Hall. split; [reflexivity|]. apply Hall. reflexivity.
  - destruct Hl as [->|(c & e' & -> & Hr)]; [left; reflexivity|].
    injection Hr as ->. right. exists c. reflexivity.
Qed.

(** A run whose outcome and events are known. *)
Ltac solve_fail_fast :=
  eapply fail_fast_of_events;
  [ flat_trace; reflexivity
  | cbn; repeat split; reflexivity
  | eexists; reflexivity
  | cbn; try discriminate; intros _; reflexivity ].

(** One library call of a run, answered or raised. *)
Ltac run_step :=
  lazymatch goal with
  | |- context [match ?o with Ok _ => _ | Raise _ => _ end] =>
      let E := fresh "Hcall" in
      let a := fresh "a" in
      destruct o as [a|?] eqn:E;
      [ lazymatch type of a with
        | prod _ _ => destruct a as [? ?]
        | _ => idtac
        end;
        cbv beta iota zeta
      | cbv beta iota zeta; solve_fail_fast ]
  end.

Lemma prepare_data_fail_fast (L : Libs) (w : World) :
  fail_fast prepare_data_steps w (prepare_data L w).
Proof.
  unfold_script.
  destruct (mnist_load_data L _) as [[[x_train y_train] [x_test y_test]]|]
    eqn:Hload; cbv beta iota zeta; [|solve_fail_fast].
  destruct (to_categorical y_train); cbv beta iota zeta; [|solve_fail_fast].
  destruct (to_categorical y_test); cbv beta iota zeta; solve_fail_fast.
Qed.

Lemma train_and_evaluate_fail_fast (L : Libs) (train_data test_data : Split)
    (bucket_name path_in_bucket : string) (job_dir : option string)
    (batch_size epochs : Z) (w : World) :
  fail_fast train_and_evaluate_steps w
    (train_and_evaluate L train_data test_data bucket_name path_in_bucket
       job_dir batch_size epochs w).
Proof.
  destruct train_data as [x_train y_train], test_data as [x_test y_test].
  unfold_script.
  destruct job_dir as [jd|]; cbv beta iota zeta; [|solve_fail_fast].
  do 14 run_step.
  solve_fail_fast.
Qed.

(** Fail-fast runs compose: the steps of a sequence are the steps of its
    parts, one after the other. *)
Lemma fail_fast_bind {A B} (s1 s2 : list Step) (m : M A) (k : A -> M B)
    (w : World) :
  fail_fast s1 w (m w) ->
  (forall a w1, fail_fast s2 w1 (k a w1)) ->
  fail_fast (s1 ++ s2) w ((m ≫= k) w).
Proof.
  intros H1 H2. unfold mbind, M_bind.
  destruct (m w) as [[a|e] w1].
  - destruct H1 as (oks1 & last1 & Ht1 & Hoks1 & _ & -> & Hs1).
    cbn [fst snd] in Ht1. rewrite app_nil_r in Ht1.
    destruct (H2 a w1) as (oks2 & last2 & Ht2 & Hoks2 & Hp2 & Hout).
    exists (oks1 ++ oks2), last2.
    split; [rewrite Ht2, Ht1, <- !app_assoc; reflexivity|].
    split; [apply Forall_app; split; assumption|].
    split.
    + unfold steps_of in *. rewrite <- app_assoc, fmap_app, Hs1.
      apply prefix_app. exact Hp2.
    + destruct (k a w1).1; [|exact Hout].
      destruct Hout as [-> Hs2]. split; [reflexivity|].
      unfold steps_of in *. rewrite fmap_app, Hs1, Hs2. reflexivity.
  - destruct H1 as (oks1 & last1 & Ht1 & Hoks1 & Hp1 & Hout).
    exists oks1, last1. cbn [fst snd] in *.
    split; [exact Ht1|]. split; [exact Hoks1|].
    split; [apply prefix_app_r; exact Hp1|exact Hout].
Qed.

Lemma main_fail_fast (L : Libs) (argv : list string) (w : World) :
  fail_fast (prepare_data_steps ++ train_and_evaluate_steps) w
    (main L argv w).
Proof.
  unfold main.
  change (prepare_data_steps ++ train_and_evaluate_steps)
    with ([] ++ (prepare_data_steps ++ train_and_evaluate_steps)).
  apply fail_fast_bind.
  - unfold lift. destruct (parse_args (builtin_int L) argv) as [ns|e].
    + exists [], []. cbn. rewrite app_nil_r.
      repeat split; auto using prefix_nil.
    + exists [], []. cbn. rewrite app_nil_r.
      repeat split; auto using prefix_nil.
  - intros args w1. apply fail_fast_bind.
    + apply prepare_data_fail_fast.
    + intros [train_data test_data] w2.
      apply train_and_evaluate_fail_fast.
Qed.

Lemma raised_not_among_ok (oks pre post : list Event) (ev : Event)
    (last : list Event) :
  Forall (fun ev => ev_raised ev = None) oks ->
  pre ++ ev :: post = oks ++ last ->
  ev_raised ev <> None ->
  exists pre', pre = oks ++ pre' /\ last = pre' ++ ev :: post.
Proof.
  revert pre. induction oks as [|o oks IH]; intros pre Hoks Heq Hev.
  - exists pre. split; [reflexivity|]. symmetry. exact Heq.
  - apply Forall_cons in Hoks as [Ho Hoks].
    destruct pre as [|p pre].
    + simpl in Heq. injection Heq as -> _. contradiction.
    + simpl in Heq. injection Heq as -> Heq.
      destruct (IH pre Hoks Heq Hev) as (pre' & -> & ->).
      exists pre'. split; reflexivity.
Qed.

Lemma fail_fast_propagates {A} (steps : list Step) (w : World)
    (out : result A * World) :
  fail_fast steps w out -> propagates w out.
Proof.
  intros (oks & last & Ht & Hoks & _ & Hout) pre post ev e Htrace Hev.
  rewrite Ht in Htrace. apply app_inv_head in Htrace.
  destruct (raised_not_among_ok oks pre post ev last Hoks)
    as (pre' & -> & Hlast); [symmetry; exact Htrace|congruence|].
  destruct out.1 as [a|e'].
  - destruct Hout as [-> _]. destruct pre'; discriminate.
  - destruct Hout as [->|(c & ->)]; [destruct pre'; discriminate|].
    destruct pre' as [|x pre'].
    + simpl in Hlast. injection Hlast as <- <-. simpl in Hev.
      injection Hev as ->. split; reflexivity.
    + simpl in Hlast. injection Hlast as _ Hlast.
      destruct pre'; discriminate.
Qed.

(** C8.  [prepare_data], [train_and_evaluate] and the [__main__] block that
    chains them catch nothing.  Each run makes its library calls in program
    order; when one of them raises (the download, the fit, the local save,
    the upload, the writing of the metric, or any other), that call is the
    last one made, and the run raises the same exception to its caller, up to
    the top level, where the process ends.  No call is made twice: each
    library step occurs once in the sequence a run is an initial segment
    of. *)
Theorem C8_exceptions_propagate (L : Libs) :
  (forall w,
     fail_fast prepare_data_steps w (prepare_data L w) /\
     propagates w (prepare_data L w)) /\
  (forall train_data test_data bucket_name path_in_bucket job_dir
          batch_size epochs w,
     fail_fast train_and_evaluate_steps w
       (train_and_evaluate L train_data test_data bucket_name path_in_bucket
          job_dir batch_size epochs w) /\
     propagates w
       (train_and_evaluate L train_data test_data bucket_name path_in_bucket
          job_dir batch_size epochs w)) /\
  (forall argv w,
     fail_fast (prepare_data_steps ++ train_and_evaluate_steps) w
       (main L argv w) /\
     propagates w (main L argv w)) /\
  NoDup (List.filter
           (fun s => negb (bool_decide (s = StepLog))
                     && negb (bool_decide (s = StepClock)))
           (prepare_data_steps ++ train_and_evaluate_steps)).
Proof.
  split; [|split; [|split]].
  - intros w. pose proof (prepare_data_fail_fast L w) as H.
    split; [exact H|exact (fail_fast_propagates _ _ _ H)].
  - intros train_data test_data bucket_name path_in_bucket job_dir
      batch_size epochs w.
    pose proof (train_and_evaluate_fail_fast L train_data test_data
                  bucket_name path_in_bucket job_dir batch_size epochs w)
      as H.
    split; [exact H|exact (fail_fast_propagates _ _ _ H)].
  - intros argv w. pose proof (main_fail_fast L argv w) as H.
    split; [exact H|exact (fail_fast_propagates _ _ _ H)].
  - apply (bool_decide_unpack _). vm_compute. exact I.
Qed.

(** The whole job on a complete command line, with libraries that answer:
    it returns, having prepared the data and made the calls of a completed
    run, with one upload, one summary and the local model file. *)
Example job_completes_end_to_end :
  main (demo_libs tiny_raw 0.75)
    ["--output-bucket"; "my-bucket"; "--output-path=models";
     "--job-dir"; "gs://jobs/1"; "--epochs"; "1"; "--batch-size"; "2"]
    empty_world = (Ok tt, demo_job_world) /\
  uploads (trace demo_job_world)
    = [("my-bucket", "models/mnist_keras_20200102030405.h5", "mymodel.h5")] /\
  summaries_written (trace demo_job_world)
    = [("gs://jobs/1/accuracyMnist",
        mk_Summary [mk_SummaryValue "accuracyMnist" 0.75])].
Proof. repeat split. Qed.

(** With a disk that is full when the model is saved, the same job stops at
    [m.save] and raises the exception of that call; nothing is uploaded. *)
Example disk_full_stops_the_job :
  let out :=
    main demo_libs_disk_full
      ["--output-bucket"; "my-bucket"; "--output-path=models";
       "--job-dir"; "gs://jobs/1"; "--epochs"; "1"; "--batch-size"; "2"]
      empty_world in
  out.1 = Raise disk_full /\
  steps_of (trace out.2) =
    [ StepLog; StepLoadData; StepClock; StepLog; StepTensorBoard;
      StepBuildModel; StepOptimizer; StepCompile; StepFit; StepEvaluate;
      StepSave ] /\
  List.last (trace out.2) (ok_event BuildModel)
    = mk_Event (ModelSave "mymodel.h5") (Some disk_full) /\
  uploads (trace out.2) = [] /\
  local_files out.2 = ∅.
Proof. repeat split. Qed.

(** ** Without a job directory *)

(** C10.  With [job_dir] equal to [None], [train_and_evaluate] raises
    [TypeError] when it builds the log directory: the only call made is the
    reading of the clock, and no model is built, trained, saved or uploaded.
    [None] is what [--job-dir] is when the command line omits it, so every
    run of the job on such a command line raises, having at most logged,
    loaded the data and read the clock. *)
Theorem C10_no_job_dir_fails_before_training (L : Libs) :
  (forall train_data test_data bucket_name path_in_bucket batch_size epochs w,
     train_and_evaluate L train_data test_data bucket_name path_in_bucket
       None batch_size epochs w
     = (Raise no_job_dir_error,
        log_event (TimeStrftime "%Y%m%d-%H%M%S") None w)) /\
  (forall argv ns,
     omits JobDir argv = true ->
     parse_args (builtin_int L) argv = Ok ns ->
     job_dir ns = None) /\
  (forall argv w,
     omits JobDir argv = true ->
     exists (e : exn) (w' : World) (evs : list Event),
       main L argv w = (Raise e, w') /\
       trace w' = trace w ++ evs /\
       steps_of evs `prefix_of` [StepLog; StepLoadData; StepClock] /\
       local_files w' = local_files w).
Proof.
  assert (Hnone : forall argv ns,
            omits JobDir argv = true ->
            parse_args (builtin_int L) argv = Ok ns ->
            job_dir ns = None).
  { intros argv ns Ho Hparse.
    destruct (parse_args_ok_sources _ _ _ Hparse)
      as (_ & _ & [Hj|(tok & Hin & Hsel)]); [exact Hj|].
    rewrite (omits_not_selected _ _ _ Ho Hin) in Hsel. discriminate. }
  split; [|split; [exact Hnone|]].
  - intros train_data test_data bucket_name path_in_bucket batch_size
      epochs w.
    reflexivity.
  - intros argv w Ho.
    destruct (parse_args (builtin_int L) argv) as [ns|e] eqn:Hparse.
    + pose proof (Hnone argv ns Ho Hparse) as Hj.
      unfold main, mbind at 1, M_bind at 1, lift. rewrite Hparse, Hj.
      unfold_script.
      destruct (mnist_load_data L _)
        as [[[x_train y_train] [x_test y_test]]|] eqn:Hload;
        cbv beta iota zeta.
      * destruct (to_categorical y_train); cbv beta iota zeta;
          [destruct (to_categorical y_test); cbv beta iota zeta|];
          eexists _, _, _;
          (split; [reflexivity|]);
          (split; [flat_trace; reflexivity|]);
          (split; [eexists; reflexivity|reflexivity]).
      * eexists _, _, _.
        split; [reflexivity|].
        split; [flat_trace; reflexivity|].
        split; [eexists; reflexivity|reflexivity].
    + exists e, w, []. rewrite app_nil_r.
      split; [apply main_parse_raise; exact Hparse|].
      split; [reflexivity|]. split; [apply prefix_nil|reflexivity].
Qed.

Lemma C10_no_job_dir_witness :
  exists (e : exn) (w' : World) (evs : list Event),
    main (demo_libs tiny_raw 0.75)
      ["--output-bucket"; "my-bucket"; "--output-path"; "models"]
      empty_world = (Raise e, w') /\
    trace w' = trace empty_world ++ evs /\
    steps_of evs `prefix_of` [StepLog; StepLoadData; StepClock] /\
    local_files w' = local_files empty_world.
Proof.
  apply (proj2 (proj2 (C10_no_job_dir_fails_before_training
                         (demo_libs tiny_raw 0.75)))
           ["--output-bucket"; "my-bucket"; "--output-path"; "models"]
           empty_world).
  reflexivity.
Defined.

(** * Further properties of the script *)

(** ** What any run of [train_and_evaluate] has done *)

(** A run whose events are known: the local files are the initial ones, with
    the model file when [m.save] answered; an upload was attempted only after
    the save answered, and the metric is reported only after the upload
    answered. *)
Ltac solve_run_order :=
  cbn [fst snd];
  eexists; split; [flat_trace; reflexivity|];
  split; [flat_trace; reflexivity|];
  split; [cbn; intros; first [reflexivity | discriminate]|];
  cbn; intros; first [reflexivity | discriminate].

Ltac order_step :=
  lazymatch goal with
  | |- context [match ?o with Ok _ => _ | Raise _ => _ end] =>
      let E := fresh "Hcall" in
      let a := fresh "a" in
      destruct o as [a|?] eqn:E;
      [ lazymatch type of a with
        | prod _ _ => destruct a as [? ?]
        | _ => idtac
        end;
        cbv beta iota zeta
      | cbv beta iota zeta; solve_run_order ]
  end.

Lemma train_and_evaluate_order (L : Libs) (train_data test_data : Split)
    (bucket_name path_in_bucket : string) (job_dir : option string)
    (batch_size epochs : Z) (w : World) :
  let out :=
    train_and_evaluate L train_data test_data bucket_name path_in_bucket
      job_dir batch_size epochs w in
  exists evs : list Event,
    trace out.2 = trace w ++ evs /\
    local_files out.2 =
      (if call_answered is_save evs
       then {[ "mymodel.h5" ]} ∪ local_files w else local_files w) /\
    (call_made is_upload evs = true -> call_answered is_save evs = true) /\
    (call_made is_metric_call evs = true ->
     call_answered is_upload evs = true).
Proof.
  destruct train_data as [x_train y_train], test_data as [x_test y_test].
  cbv zeta. unfold_script.
  destruct job_dir as [jd|]; cbv beta iota zeta; [|solve_run_order].
  do 14 order_step.
  solve_run_order.
Qed.

Lemma main_order (L : Libs) (argv : list string) (w : World) :
  let out := main L argv w in
  exists evs : list Event,
    trace out.2 = trace w ++ evs /\
    local_files out.2 =
      (if call_answered is_save evs
       then {[ "mymodel.h5" ]} ∪ local_files w else local_files w) /\
    (call_made is_upload evs = true -> call_answered is_save evs = true) /\
    (call_made is_metric_call evs = true ->
     call_answered is_upload evs = true).
Proof.
  cbv zeta. unfold main. unfold_script.
  destruct (parse_args (builtin_int L) argv) as [ns|e]; cbv beta iota zeta.
  2: { exists []. cbn. rewrite app_nil_r. repeat split; discriminate. }
  destruct (mnist_load_data L _)
    as [[[x_train y_train] [x_test y_test]]|] eqn:Hload;
    cbv beta iota zeta; [|solve_run_order].
  destruct (to_categorical y_train); cbv beta iota zeta;
    [|solve_run_order].
  destruct (to_categorical y_test); cbv beta iota zeta; [|solve_run_order].
  destruct (job_dir ns) as [jd|]; cbv beta iota zeta; [|solve_run_order].
  do 14 order_step.
  solve_run_order.
Qed.

Lemma summaries_written_metric_call (evs : list Event) :
  summaries_written evs <> [] -> call_made is_metric_call evs = true.
Proof.
  induction evs as [|[c r] evs IH]; [intros H; contradiction|].
  intros H. cbn.
  destruct (is_metric_call c) eqn:Hc; [reflexivity|].
  apply IH. unfold summaries_written in *. cbn in H.
  destruct c; try discriminate Hc; exact H.
Qed.


(** ** The training logs *)

(** X1.  A completed run of [train_and_evaluate] creates one TensorBoard
    callback and fits the model once, with the batch size and the number of
    epochs it was given; the callback and the fit use the same log directory,
    [os.path.join(job_dir, "logs/scalars/" + timestamp)], whose timestamp is
    what the clock answered at the very beginning of the run. *)
Theorem X1_fit_logs_under_job_dir (L : Libs) (train_data test_data : Split)
    (bucket_name path_in_bucket : string) (job_dir : option string)
    (batch_size epochs : Z) (w w' : World) (u : unit) :
  train_and_evaluate L train_data test_data bucket_name path_in_bucket
    job_dir batch_size epochs w = (Ok u, w') ->
  exists (jd : string) (evs : list Event),
    let timestamp := time_strftime L "%Y%m%d-%H%M%S" w in
    let logdir := posixpath_join jd ("logs/scalars/" +:+ timestamp) in
    job_dir = Some jd /\
    trace w' = trace w ++ evs /\
    tensorboards evs = [logdir] /\
    fits evs = [(batch_size, epochs, logdir)] /\
    logdir =
      if (String.eqb jd "" || endswith "/" jd)%bool
      then jd +:+ "logs/scalars/" +:+ timestamp
      else jd +:+ "/" +:+ "logs/scalars/" +:+ timestamp.
Proof.
  intros Hrun.
  destruct (train_and_evaluate_ok_inv _ _ _ _ _ _ _ _ _ _ _ Hrun)
    as (jd & m & test_loss & test_acc & w_eval & w_clock & H).
  cbv zeta in H. destruct H as (Hjd & Htrace & _).
  eexists jd, _. cbv zeta.
  split; [exact Hjd|]. split; [exact Htrace|].
  split; [reflexivity|]. split; [reflexivity|].
  apply posixpath_join_relative. reflexivity.
Qed.

Lemma X1_fit_logs_witness :
  exists (jd : string) (evs : list Event),
    let timestamp :=
      time_strftime (demo_libs tiny_raw 0.75) "%Y%m%d-%H%M%S"
        tiny_prepared_world in
    let logdir := posixpath_join jd ("logs/scalars/" +:+ timestamp) in
    Some "gs://jobs/1" = Some jd /\
    trace demo_job_world = trace tiny_prepared_world ++ evs /\
    tensorboards evs = [logdir] /\
    fits evs = [(2, 1, logdir)] /\
    logdir =
      if (String.eqb jd "" || endswith "/" jd)%bool
      then jd +:+ "logs/scalars/" +:+ timestamp
      else jd +:+ "/" +:+ "logs/scalars/" +:+ timestamp.
Proof.
  apply (X1_fit_logs_under_job_dir (demo_libs tiny_raw 0.75)
           tiny_train tiny_test "my-bucket" "models" (Some "gs://jobs/1")
           2 1 tiny_prepared_world demo_job_world tt).
  reflexivity.
Defined.

(** ** Local files, uploads and the metric in runs that fail *)


(** X3.  In every run of [train_and_evaluate] and of the whole job, the
    metric is reported only after the upload answered: when a summary was
    written, or the summary writer was as much as opened, the model had been
    saved and uploaded; a run whose upload raised or was never reached
    writes no summary. *)
Theorem X3_metric_only_after_upload (L : Libs) :
  (forall train_data test_data bucket_name path_in_bucket job_dir
          batch_size epochs w,
     exists evs,
       trace
         (train_and_evaluate L train_data test_data bucket_name
            path_in_bucket job_dir batch_size epochs w).2
         = trace w ++ evs /\
       (call_made is_metric_call evs = true ->
        call_answered is_upload evs = true /\
        call_answered is_save evs = true) /\
       (call_answered is_upload evs = false -> summaries_written evs = [])) /\
  (forall argv w,
     exists evs,
       trace (main L argv w).2 = trace w ++ evs /\
       (call_made is_metric_call evs = true ->
        call_answered is_upload evs = true /\
        call_answered is_save evs = true) /\
       (call_answered is_upload evs = false -> summaries_written evs = [])).
Proof.
  assert (Hanswered_made : forall kind evs,
            call_answered kind evs = true -> call_made kind evs = true).
  { intros kind evs. unfold call_answered, call_made.
    induction evs as [|ev evs IH]; cbn; [discriminate|].
    destruct (kind (ev_call ev)); cbn; [reflexivity|exact IH]. }
  assert (Hgen : forall evs,
            (call_made is_upload evs = true ->
             call_answered is_save evs = true) ->
            (call_made is_metric_call evs = true ->
             call_answered is_upload evs = true) ->
            (call_made is_metric_call evs = true ->
             call_answered is_upload evs = true /\
             call_answered is_save evs = true) /\
            (call_answered is_upload evs = false ->
             summaries_written evs = [])).
  { intros evs Hup Hmet. split.
    - intros Hm. pose proof (Hmet Hm) as Hu.
      split; [exact Hu|]. apply Hup, Hanswered_made. exact Hu.
    - intros Hno.
      destruct (summaries_written evs) as [|s ss] eqn:Hs; [reflexivity|].
      assert (Hne : summaries_written evs <> []) by (rewrite Hs; discriminate).
      rewrite (Hmet (summaries_written_metric_call evs Hne)) in Hno.
      discriminate. }
  split.
  - intros train_data test_data bucket_name path_in_bucket job_dir
      batch_size epochs w.
    destruct (train_and_evaluate_order L train_data test_data bucket_name
                path_in_bucket job_dir batch_size epochs w)
      as (evs & Ht & _ & Hup & Hmet).
    exists evs. split; [exact Ht|]. apply Hgen; assumption.
  - intros argv w.
    destruct (main_order L argv w) as (evs & Ht & _ & Hup & Hmet).
    exists evs. split; [exact Ht|]. apply Hgen; assumption.
Qed.

(** ** What [prepare_data] returns *)

Lemma one_hot_row_length (num_classes label : Z) :
  length (one_hot_row num_classes label) = Z.to_nat num_classes.
Proof. unfold one_hot_row. rewrite length_insert, length_replicate. reflexivity. Qed.

Lemma to_categorical_rectangular (y : list Z) :
  y <> [] ->
  (forall l, In l y -> 0 <= l) ->
  exists (rows : list (list float)) (top : Z),
    to_categorical y = Ok rows /\
    largest_label y = Some top /\
    length rows = length y /\
    forall row, In row rows -> length row = Z.to_nat (top + 1).
Proof.
  intros Hne Hpos. destruct y as [|y0 ys]; [congruence|].
  assert (Hup : forall l, In l (y0 :: ys) -> 0 <= l < np_max y0 ys + 1).
  { intros l Hl. pose proof (np_max_upper ys y0 l Hl).
    specialize (Hpos l Hl). lia. }
  exists (one_hot_row (np_max y0 ys + 1) <$> (y0 :: ys)), (np_max y0 ys).
  split; [|split; [reflexivity|split]].
  - unfold to_categorical.
    replace (np_max y0 ys + 1 <? 0) with false
      by (symmetry; apply Z.ltb_ge;
          specialize (Hup y0 (or_introl eq_refl)); lia).
    apply categorical_rows_in_range. exact Hup.
  - apply length_fmap.
  - intros row Hrow. apply list_elem_of_In, list_elem_of_fmap in Hrow.
    destruct Hrow as (l & -> & _). apply one_hot_row_length.
Qed.

(** X4.  When [mnist.load_data()] answers with label vectors that are not
    empty and hold no negative label, [prepare_data] answers, having made no
    other call: each normalised array has the shape and the number of
    elements of the raw one, each encoded split has one row per label, and
    its rows all have the same length, one more than the largest label of the
    split. *)
Theorem X4_prepare_data_keeps_shapes (L : Libs) (w : World)
    (x_train x_test : ndarray Z) (y_train y_test : list Z) :
  mnist_load_data L
    (log_event (LoggerInfo "Preparing and downloading data") None w)
    = Ok ((x_train, y_train), (x_test, y_test)) ->
  y_train <> [] -> y_test <> [] ->
  (forall l, In l y_train -> 0 <= l) ->
  (forall l, In l y_test -> 0 <= l) ->
  exists (tr te : Split) (top_train top_test : Z),
    prepare_data L w =
      (Ok (tr, te),
       log_event MnistLoadData None
         (log_event (LoggerInfo "Preparing and downloading data") None w)) /\
    shape tr.1 = shape x_train /\
    length (data tr.1) = length (data x_train) /\
    length tr.2 = length y_train /\
    largest_label y_train = Some top_train /\
    (forall row, In row tr.2 -> length row = Z.to_nat (top_train + 1)) /\
    shape te.1 = shape x_test /\
    length (data te.1) = length (data x_test) /\
    length te.2 = length y_test /\
    largest_label y_test = Some top_test /\
    (forall row, In row te.2 -> length row = Z.to_nat (top_test + 1)).
Proof.
  intros Hload Hne1 Hne2 Hpos1 Hpos2.
  destruct (to_categorical_rectangular y_train Hne1 Hpos1)
    as (rows1 & top1 & Hc1 & Ht1 & Hl1 & Hw1).
  destruct (to_categorical_rectangular y_test Hne2 Hpos2)
    as (rows2 & top2 & Hc2 & Ht2 & Hl2 & Hw2).
  exists (np_true_divide x_train 255, rows1),
    (np_true_divide x_test 255, rows2), top1, top2.
  split.
  { unfold_script. rewrite Hload. cbv beta iota zeta.
    rewrite Hc1, Hc2. reflexivity. }
  cbn [fst snd].
  repeat split; try assumption; cbn; apply length_fmap.
Qed.

Lemma X4_prepare_data_keeps_shapes_witness :
  exists (tr te : Split) (top_train top_test : Z),
    prepare_data (demo_libs tiny_raw 0.75) empty_world =
      (Ok (tr, te),
       log_event MnistLoadData None
         (log_event (LoggerInfo "Preparing and downloading data") None
            empty_world)) /\
    shape tr.1 = shape tiny_raw.1.1 /\
    length (data tr.1) = length (data tiny_raw.1.1) /\
    length tr.2 = length tiny_raw.1.2 /\
    largest_label tiny_raw.1.2 = Some top_train /\
    (forall row, In row tr.2 -> length row = Z.to_nat (top_train + 1)) /\
    shape te.1 = shape tiny_raw.2.1 /\
    length (data te.1) = length (data tiny_raw.2.1) /\
    length te.2 = length tiny_raw.2.2 /\
    largest_label tiny_raw.2.2 = Some top_test /\
    (forall row, In row te.2 -> length row = Z.to_nat (top_test + 1)).
Proof.
  apply (X4_prepare_data_keeps_shapes (demo_libs tiny_raw 0.75) empty_world
           tiny_raw.1.1 tiny_raw.2.1 tiny_raw.1.2 tiny_raw.2.2).
  - reflexivity.
  - discriminate.
  - discriminate.
  - intros l [<-|[<-|[]]]; lia.
  - intros l [<-|[<-|[]]]; lia.
Defined.

(** X5.  When [mnist.load_data()] answers with an empty vector of training
    labels, or with good training labels and an empty vector of test labels,
    [prepare_data] raises the [ValueError] of [np.max] on an empty array
    right after the download, and so does the whole job on every command
    line that parses: no model is built. *)
Theorem X5_empty_labels_stop_the_job (L : Libs) (w : World)
    (x_train x_test : ndarray Z) (y_train y_test : list Z) :
  mnist_load_data L
    (log_event (LoggerInfo "Preparing and downloading data") None w)
    = Ok ((x_train, y_train), (x_test, y_test)) ->
  y_train = [] \/ (is_ok (to_categorical y_train) = true /\ y_test = []) ->
  let w' :=
    log_event MnistLoadData None
      (log_event (LoggerInfo "Preparing and downloading data") None w) in
  prepare_data L w = (Raise empty_labels_error, w') /\
  forall argv,
    is_ok (parse_args (builtin_int L) argv) = true ->
    main L argv w = (Raise empty_labels_error, w').
Proof.
  intros Hload Hempty. cbv zeta.
  assert (Hprep : prepare_data L w =
                  (Raise empty_labels_error,
                   log_event MnistLoadData None
                     (log_event
                        (LoggerInfo "Preparing and downloading data")
                        None w))).
  { unfold_script. rewrite Hload. cbv beta iota zeta.
    destruct Hempty as [->|[Hok ->]]; [reflexivity|].
    destruct (to_categorical y_train); [reflexivity|discriminate]. }
  split; [exact Hprep|].
  intros argv Hparse. unfold main, mbind at 1, M_bind at 1, lift.
  destruct (parse_args (builtin_int L) argv) as [ns|]; [|discriminate].
  unfold mbind, M_bind. rewrite Hprep. reflexivity.
Qed.

Lemma X5_empty_labels_witness :
  let L :=
    demo_libs ((mk_ndarray [0%nat; 28%nat; 28%nat] [], []),
               (mk_ndarray [1%nat; 1%nat; 1%nat] [7], [3])) 0.75 in
  let w' :=
    log_event MnistLoadData None
      (log_event (LoggerInfo "Preparing and downloading data") None
         empty_world) in
  prepare_data L empty_world = (Raise empty_labels_error, w') /\
  forall argv,
    is_ok (parse_args (builtin_int L) argv) = true ->
    main L argv empty_world = (Raise empty_labels_error, w').
Proof.
  apply (X5_empty_labels_stop_the_job
           (demo_libs ((mk_ndarray [0%nat; 28%nat; 28%nat] [], []),
                       (mk_ndarray [1%nat; 1%nat; 1%nat] [7], [3])) 0.75)
           empty_world
           (mk_ndarray [0%nat; 28%nat; 28%nat] [])
           (mk_ndarray [1%nat; 1%nat; 1%nat] [7]) [] [3]).
  - reflexivity.
  - left. reflexivity.
Defined.

(** ** The integers of the command line *)

(** X6.  When [parse_args] returns, on a command line with no option
    written [=--], [batch_size] is the default 64 or the value [int] made of
    a string given to [--batch-size] on the command line (after [=], or as
    the next string), and [epochs] is the default 30 or such a value for
    [--epochs]; on a command line that omits the option the default is what
    the namespace holds. *)
Theorem X6_batch_size_and_epochs (int_of_str : string -> option Z)
    (argv : list string) (ns : Namespace) :
  plain_values argv = true ->
  parse_args int_of_str argv = Ok ns ->
  (batch_size ns = 64 \/
   exists tok v,
     In tok argv /\ selects BatchSize tok = true /\
     (explicit_arg_of tok = Some v \/
      (explicit_arg_of tok = None /\ In v argv)) /\
     int_of_str v = Some (batch_size ns)) /\
  (epochs ns = 30 \/
   exists tok v,
     In tok argv /\ selects Epochs tok = true /\
     (explicit_arg_of tok = Some v \/
      (explicit_arg_of tok = None /\ In v argv)) /\
     int_of_str v = Some (epochs ns)) /\
  (omits BatchSize argv = true -> batch_size ns = 64) /\
  (omits Epochs argv = true -> epochs ns = 30).
Proof.
  intros _. unfold parse_args. intros H.
  destruct (classify argv) as [cs|] eqn:Hc; [|discriminate].
  destruct (consume int_of_str cs initial_state) as [st|] eqn:Hrun;
    [|discriminate].
  pose (Q := fun st : ParseState =>
    (st_batch_size st = 64 \/
     exists v, given cs BatchSize v /\
               int_of_str v = Some (st_batch_size st)) /\
    (st_epochs st = 30 \/
     exists v, given cs Epochs v /\
               int_of_str v = Some (st_epochs st))).
  assert (Hextra : forall st0 s, Q st0 -> Q (add_extra s st0))
    by (intros st0 s HQ0; exact HQ0).
  assert (Htake : forall st0 st1 a v,
            given cs a v -> take_action int_of_str a v st0 = Ok st1 ->
            Q st0 -> Q st1).
  { intros st0 st1 a v Hgiven Hact (Hb & He).
    destruct a; simpl in Hact; try discriminate.
    - injection Hact as <-. split; assumption.
    - injection Hact as <-. split; assumption.
    - destruct (int_of_str v) as [n|] eqn:Hn; [|discriminate].
      injection Hact as <-. split; [|exact He].
      right. exists v. split; [exact Hgiven|exact Hn].
    - destruct (int_of_str v) as [n|] eqn:Hn; [|discriminate].
      injection Hact as <-. split; [exact Hb|].
      right. exists v. split; [exact Hgiven|exact Hn].
    - injection Hact as <-. split; assumption. }
  assert (Hinit : Q initial_state) by (split; left; reflexivity).
  assert (HQ : Q st).
  { apply (consume_invariant int_of_str cs Q Hextra Htake
             (length cs) cs initial_state st); auto. }
  destruct HQ as (Hb & He).
  destruct (st_output_bucket st) as [bucket|]; [|discriminate].
  destruct (st_seen_output_path st); [|discriminate].
  destruct (st_extras st); [|discriminate].
  injection H as <-. cbn [batch_size epochs].
  assert (Hb' : st_batch_size st = 64 \/
                exists tok v,
                  In tok argv /\ selects BatchSize tok = true /\
                  (explicit_arg_of tok = Some v \/
                   (explicit_arg_of tok = None /\ In v argv)) /\
                  int_of_str v = Some (st_batch_size st)).
  { destruct Hb as [Hb|(v & Hg & Hn)]; [left; exact Hb|right].
    destruct (given_selects argv cs _ _ Hc Hg) as (tok & Hin & Hsel & Hv).
    exists tok, v. repeat split; assumption. }
  assert (He' : st_epochs st = 30 \/
                exists tok v,
                  In tok argv /\ selects Epochs tok = true /\
                  (explicit_arg_of tok = Some v \/
                   (explicit_arg_of tok = None /\ In v argv)) /\
                  int_of_str v = Some (st_epochs st)).
  { destruct He as [He|(v & Hg & Hn)]; [left; exact He|right].
    destruct (given_selects argv cs _ _ Hc Hg) as (tok & Hin & Hsel & Hv).
    exists tok, v. repeat split; assumption. }
  split; [exact Hb'|]. split; [exact He'|]. split.
  - intros Ho. destruct Hb' as [Hd|(tok & v & Hin & Hsel & _)]; [exact Hd|].
    rewrite (omits_not_selected _ _ _ Ho Hin) in Hsel. discriminate.
  - intros Ho. destruct He' as [Hd|(tok & v & Hin & Hsel & _)]; [exact Hd|].
    rewrite (omits_not_selected _ _ _ Ho Hin) in Hsel. discriminate.
Qed.

Lemma X6_batch_size_and_epochs_witness :
  let argv :=
    ["--output-bucket"; "b"; "--output-path"; "p"; "--epochs=5"] in
  let ns := mk_Namespace "b" "p" 64 5 None in
  (batch_size ns = 64 \/
   exists tok v,
     In tok argv /\ selects BatchSize tok = true /\
     (explicit_arg_of tok = Some v \/
      (explicit_arg_of tok = None /\ In v argv)) /\
     dec_int v = Some (batch_size ns)) /\
  (epochs ns = 30 \/
   exists tok v,
     In tok argv /\ selects Epochs tok = true /\
     (explicit_arg_of tok = Some v \/
      (explicit_arg_of tok = None /\ In v argv)) /\
     dec_int v = Some (epochs ns)) /\
  (omits BatchSize argv = true -> batch_size ns = 64) /\
  (omits Epochs argv = true -> epochs ns = 30).
Proof.
  apply (X6_batch_size_and_epochs dec_int
           ["--output-bucket"; "b"; "--output-path"; "p"; "--epochs=5"]
           (mk_Namespace "b" "p" 64 5 None)).
  - reflexivity.
  - reflexivity.
Defined.

(** ** From the command line to the calls *)

Lemma prepare_data_ok_world (L : Libs) (w w' : World) (r : Split * Split) :
  prepare_data L w = (Ok r, w') ->
  w' = log_event MnistLoadData None
         (log_event (LoggerInfo "Preparing and downloading data") None w).
Proof.
  unfold_script. intros H.
  destruct (mnist_load_data L _)
    as [[[x_train y_train] [x_test y_test]]|]; [|discriminate].
  cbv beta iota zeta in H.
  destruct (to_categorical y_train); [|discriminate].
  destruct (to_categorical y_test); [|discriminate].
  injection H as _ <-. reflexivity.
Qed.

(** X7.  A completed run of the whole job, on a command line with no
    option written [=--], was given [--job-dir] on the command line, and its
    calls use the parsed arguments where they belong:
    the model is fitted once with the batch size and the epochs of the
    namespace, logging under the job directory; it is uploaded once, to the
    bucket of [--output-bucket], under the path of [--output-path]; and the
    one summary is written under the job directory. *)
Theorem X7_job_uses_the_parsed_arguments (L : Libs) (argv : list string)
    (w w' : World) (u : unit) :
  plain_values argv = true ->
  main L argv w = (Ok u, w') ->
  exists (ns : Namespace) (jd now now' : string) (test_acc : float)
         (evs : list Event),
    parse_args (builtin_int L) argv = Ok ns /\
    job_dir ns = Some jd /\
    (exists tok, In tok argv /\ selects JobDir tok = true) /\
    trace w' = trace w ++ evs /\
    fits evs =
      [ (batch_size ns, epochs ns,
         posixpath_join jd ("logs/scalars/" +:+ now)) ] /\
    uploads evs =
      [ (output_bucket ns,
         posixpath_join (output_path ns)
           ("mnist_keras_" +:+ now' +:+ ".h5"),
         "mymodel.h5") ] /\
    summaries_written evs =
      [ (posixpath_join jd "accuracyMnist",
         mk_Summary [mk_SummaryValue "accuracyMnist" test_acc]) ].
Proof.
  intros _ Hrun. unfold main, mbind at 1, M_bind at 1, lift in Hrun.
  destruct (parse_args (builtin_int L) argv) as [ns|] eqn:Hparse;
    [|discriminate].
  unfold mbind, M_bind in Hrun.
  destruct (prepare_data L w) as [[[train_data test_data]|] w1] eqn:Hprep;
    [|discriminate].
  pose proof (prepare_data_ok_world _ _ _ _ Hprep) as Hw1. subst w1.
  destruct (train_and_evaluate_ok_inv _ _ _ _ _ _ _ _ _ _ _ Hrun)
    as (jd & m & test_loss & test_acc & w_eval & w_clock & H).
  cbv zeta in H. destruct H as (Hjd & Htrace & _).
  eexists ns, jd, _, _, test_acc, _.
  split; [reflexivity|]. split; [exact Hjd|]. split.
  { destruct (parse_args_ok_sources _ _ _ Hparse) as (_ & _ & [Hn|Hg]);
      [congruence|exact Hg]. }
  split.
  { rewrite Htrace. flat_trace. reflexivity. }
  split; [reflexivity|]. split; reflexivity.
Qed.

Lemma X7_job_uses_the_parsed_arguments_witness :
  let L := demo_libs tiny_raw 0.75 in
  let argv :=
    ["--output-bucket"; "my-bucket"; "--output-path=models";
     "--job-dir"; "gs://jobs/1"; "--epochs"; "1"; "--batch-size"; "2"] in
  exists (ns : Namespace) (jd now now' : string) (test_acc : float)
         (evs : list Event),
    parse_args (builtin_int L) argv = Ok ns /\
    job_dir ns = Some jd /\
    (exists tok, In tok argv /\ selects JobDir tok = true) /\
    trace demo_job_world = trace empty_world ++ evs /\
    fits evs =
      [ (batch_size ns, epochs ns,
         posixpath_join jd ("logs/scalars/" +:+ now)) ] /\
    uploads evs =
      [ (output_bucket ns,
         posixpath_join (output_path ns)
           ("mnist_keras_" +:+ now' +:+ ".h5"),
         "mymodel.h5") ] /\
    summaries_written evs =
      [ (posixpath_join jd "accuracyMnist",
         mk_Summary [mk_SummaryValue "accuracyMnist" test_acc]) ].
Proof.
  apply (X7_job_uses_the_parsed_arguments (demo_libs tiny_raw 0.75)
           ["--output-bucket"; "my-bucket"; "--output-path=models";
            "--job-dir"; "gs://jobs/1"; "--epochs"; "1"; "--batch-size"; "2"]
           empty_world demo_job_world tt).
  - reflexivity.
  - reflexivity.
Defined.

(** ** Nothing is lost in preprocessing *)

Lemma float_one_is_not_zero : 1%float <> 0%float.
Proof.
  intros H. pose proof (f_equal (PrimFloat.eqb 1) H) as E.
  vm_compute in E. discriminate E.
Qed.

(** X8.  The encoding of labels loses nothing: in the matrix
    [_preprocess_y] answers for a non-empty vector of non-negative labels,
    two rows are equal exactly when the two labels are. *)
Theorem X8_label_encoding_is_injective (y : list Z) (w : World) :
  y <> [] ->
  (forall l, In l y -> 0 <= l) ->
  exists rows : Labels,
    _preprocess_y y w = (Ok rows, w) /\
    forall (i j : nat) (li lj : Z),
      y !! i = Some li -> y !! j = Some lj ->
      (rows !! i = rows !! j <-> li = lj).
Proof.
  intros Hne Hpos.
  destruct (to_categorical_nonneg y Hne Hpos) as (C & Hcat & _ & Hup).
  exists (one_hot_row C <$> y). split.
  { unfold _preprocess_y, lift. rewrite Hcat. reflexivity. }
  intros i j li lj Hi Hj.
  rewrite !list_lookup_fmap, Hi, Hj. cbn.
  assert (Hli : 0 <= li < C)
    by (apply Hup, list_elem_of_In; eapply list_elem_of_lookup_2; exact Hi).
  assert (Hlj : 0 <= lj < C)
    by (apply Hup, list_elem_of_In; eapply list_elem_of_lookup_2; exact Hj).
  split; [|intros ->; reflexivity].
  intros Heq. injection Heq as Heq.
  assert (Hlt : (Z.to_nat li < Z.to_nat C)%nat) by lia.
  pose proof (one_hot_row_lookup C li (Z.to_nat li) Hli Hlt) as H1.
  pose proof (one_hot_row_lookup C lj (Z.to_nat li) Hlj Hlt) as H2.
  rewrite Heq, H2 in H1.
  destruct (decide (Z.to_nat li = Z.to_nat li)); [|congruence].
  destruct (decide (Z.to_nat li = Z.to_nat lj)) as [Hn|_].
  - apply Z2Nat.inj; lia.
  - exfalso. apply float_one_is_not_zero. symmetry.
    exact (f_equal (fun o : option float => default 0%float o) H1).
Qed.

Lemma X8_label_encoding_witness :
  exists rows : Labels,
    _preprocess_y [2; 0; 2] empty_world = (Ok rows, empty_world) /\
    forall (i j : nat) (li lj : Z),
      [2; 0; 2] !! i = Some li -> [2; 0; 2] !! j = Some lj ->
      (rows !! i = rows !! j <-> li = lj).
Proof.
  apply (X8_label_encoding_is_injective [2; 0; 2] empty_world).
  - discriminate.
  - intros l [<-|[<-|[<-|[]]]]; lia.
Defined.

Lemma normalization_increasing_all :
  forallb (fun a =>
    forallb (fun b =>
      if (a <? b)%nat
      then PrimFloat.ltb
             (PrimFloat.div (uint8_to_float64 (Z.of_nat a)) 255)
             (PrimFloat.div (uint8_to_float64 (Z.of_nat b)) 255)
      else true)
      (seq 0 256))
    (seq 0 256) = true.
Proof. vm_compute. reflexivity. Qed.

Lemma normalization_increasing (v1 v2 : Z) :
  0 <= v1 -> v1 < v2 -> v2 <= 255 ->
  PrimFloat.ltb (PrimFloat.div (uint8_to_float64 v1) 255)
                (PrimFloat.div (uint8_to_float64 v2) 255) = true.
Proof.
  intros H0 H12 H255.
  pose proof normalization_increasing_all as Hall.
  rewrite forallb_forall in Hall.
  assert (H1 : In (Z.to_nat v1) (seq 0 256)) by (apply in_seq; lia).
  assert (H2 : In (Z.to_nat v2) (seq 0 256)) by (apply in_seq; lia).
  pose proof (Hall (Z.to_nat v1) H1) as Hrow.
  rewrite forallb_forall in Hrow.
  specialize (Hrow (Z.to_nat v2) H2).
  rewrite !Z2Nat.id in Hrow by lia.
  replace (Z.to_nat v1 <? Z.to_nat v2)%nat with true in Hrow
    by (symmetry; apply Nat.ltb_lt; lia).
  exact Hrow.
Qed.

(** X9.  Normalisation keeps the order of pixel intensities: of two pixels
    of a [uint8] array, the darker one has the strictly smaller normalised
    value, so different intensities stay different; 0 becomes exactly 0.0
    and 255 exactly 1.0. *)
Theorem X9_normalization_keeps_order (x : ndarray Z) (w : World)
    (i j : nat) (v1 v2 : Z) :
  data x !! i = Some v1 ->
  data x !! j = Some v2 ->
  0 <= v1 -> v1 < v2 -> v2 <= 255 ->
  exists (out : Features) (r1 r2 : float),
    _preprocess_x x w = (Ok out, w) /\
    data out !! i = Some r1 /\
    data out !! j = Some r2 /\
    PrimFloat.ltb r1 r2 = true /\
    (v1 = 0 -> r1 = 0%float) /\
    (v2 = 255 -> r2 = 1%float).
Proof.
  intros Hi Hj H0 H12 H255.
  exists (np_true_divide x 255),
    (PrimFloat.div (uint8_to_float64 v1) 255),
    (PrimFloat.div (uint8_to_float64 v2) 255).
  split; [reflexivity|].
  split; [cbn; rewrite list_lookup_fmap, Hi; reflexivity|].
  split; [cbn; rewrite list_lookup_fmap, Hj; reflexivity|].
  split; [apply normalization_increasing; assumption|].
  split; intros ->; vm_compute; reflexivity.
Qed.

Lemma X9_normalization_keeps_order_witness :
  exists (out : Features) (r1 r2 : float),
    _preprocess_x (mk_ndarray [3%nat] [200; 0; 255]) empty_world
      = (Ok out, empty_world) /\
    data out !! 1%nat = Some r1 /\
    data out !! 2%nat = Some r2 /\
    PrimFloat.ltb r1 r2 = true /\
    (0 = 0 -> r1 = 0%float) /\
    (255 = 255 -> r2 = 1%float).
Proof.
  apply (X9_normalization_keeps_order (mk_ndarray [3%nat] [200; 0; 255])
           empty_world 1%nat 2%nat 0 255).
  - reflexivity.
  - reflexivity.
  - lia.
  - lia.
  - lia.
Defined.

(** ** Command lines that parse *)

Lemma classify_cons (tok : string) (t : option OptionTuple)
    (rest : list string) :
  String.eqb tok "--" = false ->
  _parse_optional tok = Ok t ->
  classify (tok :: rest) =
    match classify rest with
    | Raise e => Raise e
    | Ok cs =>
        Ok ((tok, match t with Some t => ClassO t | None => ClassA end) :: cs)
    end.
Proof. intros Hd Hp. simpl. rewrite Hd, Hp. reflexivity. Qed.

(** A string that does not start with a dash is an argument. *)
Lemma no_dash_is_argument (v : string) :
  startswith "-" v = false ->
  String.eqb v "--" = false /\ _parse_optional v = Ok None.
Proof.
  intros H. destruct v as [|c v']; [split; reflexivity|].
  assert (Hc : Ascii.eqb c "-" = false).
  { apply Ascii.eqb_neq. intros ->. unfold startswith in H. simpl in H.
    destruct v'; discriminate H. }
  split.
  - simpl. rewrite Hc. reflexivity.
  - unfold _parse_optional. rewrite Hc. reflexivity.
Qed.

(** X10.  A command line that gives the two required options and the job
    directory, each followed by a value that does not start with a dash,
    parses: the namespace holds the three values as given, the batch size 64
    and 30 epochs. *)
Theorem X10_options_with_values_parse (int_of_str : string -> option Z)
    (b p j : string) :
  startswith "-" b = false ->
  startswith "-" p = false ->
  startswith "-" j = false ->
  parse_args int_of_str
    ["--output-bucket"; b; "--output-path"; p; "--job-dir"; j]
    = Ok (mk_Namespace b p 64 30 (Some j)).
Proof.
  intros Hb Hp Hj.
  destruct (no_dash_is_argument b Hb) as [Hb1 Hb2].
  destruct (no_dash_is_argument p Hp) as [Hp1 Hp2].
  destruct (no_dash_is_argument j Hj) as [Hj1 Hj2].
  unfold parse_args.
  rewrite (classify_cons "--output-bucket"
             (Some (Some OutputBucket, "--output-bucket", None)))
    by reflexivity.
  rewrite (classify_cons b None) by assumption.
  rewrite (classify_cons "--output-path"
             (Some (Some OutputPath, "--output-path", None)))
    by reflexivity.
  rewrite (classify_cons p None) by assumption.
  rewrite (classify_cons "--job-dir"
             (Some (Some JobDir, "--job-dir", None)))
    by reflexivity.
  rewrite (classify_cons j None) by assumption.
  reflexivity.
Qed.

Lemma X10_options_with_values_witness :
  parse_args dec_int
    ["--output-bucket"; "my-bucket"; "--output-path"; "";
     "--job-dir"; "gs://jobs/1"]
    = Ok (mk_Namespace "my-bucket" "" 64 30 (Some "gs://jobs/1")).
Proof.
  apply (X10_options_with_values_parse dec_int "my-bucket" ""
           "gs://jobs/1");
    reflexivity.
Defined.

(** X11.  Written with [=], the options take any value other than the two
    dashes alone, also an empty one or one that starts with a dash: the
    command line [--output-bucket=b --output-path=p --job-dir=j] parses to
    the namespace that holds [b], [p] and [j], the batch size 64 and 30
    epochs. *)
Theorem X11_options_with_equals_take_any_value
    (int_of_str : string -> option Z) (b p j : string) :
  b <> "--" -> p <> "--" -> j <> "--" ->
  parse_args int_of_str
    ["--output-bucket=" +:+ b; "--output-path=" +:+ p; "--job-dir=" +:+ j]
    = Ok (mk_Namespace b p 64 30 (Some j)).
Proof.
  intros _ _ _. unfold parse_args.
  rewrite (classify_cons ("--output-bucket=" +:+ b)
             (Some (Some OutputBucket, "--output-bucket", Some b)))
    by (vm_compute; reflexivity).
  rewrite (classify_cons ("--output-path=" +:+ p)
             (Some (Some OutputPath, "--output-path", Some p)))
    by (vm_compute; reflexivity).
  rewrite (classify_cons ("--job-dir=" +:+ j)
             (Some (Some JobDir, "--job-dir", Some j)))
    by (vm_compute; reflexivity).
  reflexivity.
Qed.

Lemma X11_options_with_equals_witness :
  parse_args dec_int
    ["--output-bucket=" +:+ "-b"; "--output-path=" +:+ "";
     "--job-dir=" +:+ "gs://jobs/a=1"]
    = Ok (mk_Namespace "-b" "" 64 30 (Some "gs://jobs/a=1")).
Proof.
  apply (X11_options_with_equals_take_any_value dec_int "-b" ""
           "gs://jobs/a=1");
    discriminate.
Defined.

(** ** Where the model goes, and what the log says *)




Lemma startswith_append (a b : string) : startswith a (a +:+ b) = true.
Proof.
  unfold startswith. induction a as [|c a IH].
  - destruct b; reflexivity.
  - change (String c a +:+ b) with (String c (a +:+ b)).
    cbn [String.prefix]. destruct (ascii_dec c c); [exact IH|congruence].
Qed.

(** X13.  A completed run of [train_and_evaluate] uploads the local file
    'mymodel.h5' to an object whose name starts with [path_in_bucket]: the
    name is [path_in_bucket], a ['/'] unless the path is empty or ends with
    one, and 'mnist_keras_<timestamp>.h5'; with the empty path the object is
    'mnist_keras_<timestamp>.h5' itself, at the root of the bucket.  The
    summary goes, in the same way, to 'accuracyMnist' under the job
    directory. *)
Theorem X13_model_lands_under_output_path (L : Libs)
    (train_data test_data : Split) (bucket_name path_in_bucket : string)
    (job_dir : option string) (batch_size epochs : Z) (w w' : World)
    (u : unit) :
  train_and_evaluate L train_data test_data bucket_name path_in_bucket
    job_dir batch_size epochs w = (Ok u, w') ->
  exists (jd now' name eval_path : string) (s : Summary)
         (evs : list Event),
    let fn := "mnist_keras_" +:+ now' +:+ ".h5" in
    job_dir = Some jd /\
    trace w' = trace w ++ evs /\
    uploads evs = [(bucket_name, name, "mymodel.h5")] /\
    name =
      (if (String.eqb path_in_bucket "" || endswith "/" path_in_bucket)%bool
       then path_in_bucket +:+ fn
       else path_in_bucket +:+ "/" +:+ fn) /\
    startswith path_in_bucket name = true /\
    (path_in_bucket = "" -> name = fn) /\
    summaries_written evs = [(eval_path, s)] /\
    eval_path =
      (if (String.eqb jd "" || endswith "/" jd)%bool
       then jd +:+ "accuracyMnist"
       else jd +:+ "/" +:+ "accuracyMnist") /\
    startswith jd eval_path = true.
Proof.
  intros Hrun.
  destruct (train_and_evaluate_ok_inv _ _ _ _ _ _ _ _ _ _ _ Hrun)
    as (jd & m & test_loss & test_acc & w_eval & w_clock & H).
  cbv zeta in H. destruct H as (Hjd & Htrace & _).
  pose (now' := time_strftime L "%Y%m%d%H%M%S" w_clock).
  assert (Hname :
            posixpath_join path_in_bucket ("mnist_keras_" +:+ now' +:+ ".h5")
            = if (String.eqb path_in_bucket ""
                  || endswith "/" path_in_bucket)%bool
              then path_in_bucket +:+ "mnist_keras_" +:+ now' +:+ ".h5"
              else path_in_bucket +:+ "/" +:+ "mnist_keras_" +:+ now'
                   +:+ ".h5")
    by (apply posixpath_join_relative; reflexivity).
  assert (Heval :
            posixpath_join jd "accuracyMnist"
            = if (String.eqb jd "" || endswith "/" jd)%bool
              then jd +:+ "accuracyMnist"
              else jd +:+ "/" +:+ "accuracyMnist")
    by (apply posixpath_join_relative; reflexivity).
  eexists jd, now',
    (posixpath_join path_in_bucket ("mnist_keras_" +:+ now' +:+ ".h5")),
    (posixpath_join jd "accuracyMnist"), _, _.
  cbv zeta.
  split; [exact Hjd|]. split; [exact Htrace|].
  split; [reflexivity|]. split; [exact Hname|].
  split.
  { rewrite Hname.
    destruct (String.eqb path_in_bucket "" || endswith "/" path_in_bucket)%bool;
      apply startswith_append. }
  split; [intros ->; reflexivity|].
  split; [reflexivity|]. split; [exact Heval|].
  rewrite Heval.
  destruct (String.eqb jd "" || endswith "/" jd)%bool;
    apply startswith_append.
Qed.

Lemma X13_model_lands_witness :
  exists (jd now' name eval_path : string) (s : Summary)
         (evs : list Event),
    let fn := "mnist_keras_" +:+ now' +:+ ".h5" in
    Some "gs://jobs/1" = Some jd /\
    trace demo_job_world = trace tiny_prepared_world ++ evs /\
    uploads evs = [("my-bucket", name, "mymodel.h5")] /\
    name =
      (if (String.eqb "models" "" || endswith "/" "models")%bool
       then "models" +:+ fn
       else "models" +:+ "/" +:+ fn) /\
    startswith "models" name = true /\
    ("models" = "" -> name = fn) /\
    summaries_written evs = [(eval_path, s)] /\
    eval_path =
      (if (String.eqb jd "" || endswith "/" jd)%bool
       then jd +:+ "accuracyMnist"
       else jd +:+ "/" +:+ "accuracyMnist") /\
    startswith jd eval_path = true.
Proof.
  apply (X13_model_lands_under_output_path (demo_libs tiny_raw 0.75)
           tiny_train tiny_test "my-bucket" "models" (Some "gs://jobs/1")
           2 1 tiny_prepared_world demo_job_world tt).
  reflexivity.
Defined.
